(** * Calculadora de Precificacao: the validate-then-calculate pipeline of app.py

    The embedding follows src/app.py function by function.  Python's [float]
    is IEEE 754 binary64, modelled by the Standard Library's [spec_float]
    with [prec = 53] and [emax = 1024]; Python's [int] is [Z]; a mixed
    [int * float] converts the integer first and raises [OverflowError] when
    it does not fit.  The form of a request is a finite map from field names
    to raw strings. *)

From Stdlib Require Import ZArith Ascii String List Bool Lia.
From Stdlib Require Import SpecFloat.
From stdpp Require Import gmap strings.

Local Open Scope Z_scope.

(** ** Python floats *)

Module PyFloat.

Definition prec : Z := 53.
Definition emax : Z := 1024.

Definition float : Type := spec_float.

Definition add : float -> float -> float := SFadd prec emax.
Definition sub : float -> float -> float := SFsub prec emax.
Definition mul : float -> float -> float := SFmul prec emax.
Definition div : float -> float -> float := SFdiv prec emax.
Definition ltb : float -> float -> bool := SFltb.
Definition leb : float -> float -> bool := SFleb.
Definition eqb : float -> float -> bool := SFeqb.

(** Rounding of an integer to the nearest binary64 value, ties to even. *)
Definition round_int (n : Z) : float := binary_normalize prec emax n 0 false.

(** [float(n)] for an [int]: CPython rounds to nearest-even and raises
    [OverflowError] when the rounded magnitude exceeds the largest double. *)
Definition of_int (n : Z) : option float :=
  match round_int n with
  | S754_infinity _ => None
  | x => Some x
  end.

(** Small integer literals ([0], [1], [10]): exactly representable. *)
Definition lit (n : Z) : float := round_int n.

Definition inf : float := S754_infinity false.
Definition nan : float := S754_nan.

(** A genuine binary64 value: canonical mantissa, exponent in range. *)
Definition wf (x : float) : Prop := valid_binary prec emax x = true.

Definition is_finite (x : float) : bool :=
  match x with
  | S754_zero _ | S754_finite _ _ _ => true
  | _ => false
  end.

Definition is_nan (x : float) : bool :=
  match x with S754_nan => true | _ => false end.

(** [0 <= x] as Python evaluates it (false on NaN, true on [-0.0]). *)
Definition nonneg (x : float) : bool := leb (lit 0) x.

(** [x < 0] as Python evaluates it. *)
Definition negative (x : float) : bool := ltb x (lit 0).

End PyFloat.

Abbreviation float := PyFloat.float.

(** ** Exceptions of the calculation *)

Inductive exn : Set := OverflowError.

(** [str(e)] *)
Definition exn_str (e : exn) : string :=
  match e with
  | OverflowError => "int too large to convert to float"
  end.

Inductive res (A : Type) : Type :=
  | Ok (a : A)
  | Raise (e : exn).
Arguments Ok {A} a.
Arguments Raise {A} e.

Definition res_bind {A B : Type} (m : res A) (k : A -> res B) : res B :=
  match m with
  | Ok a => k a
  | Raise e => Raise e
  end.

Notation "x <~ e1 ;; e2" := (res_bind e1 (fun x => e2))
  (at level 100, e1 at next level, right associativity).

(** [n * x] and [n + x] with [n : int] and [x : float]. *)
Definition int_mul_float (n : Z) (x : float) : res float :=
  match PyFloat.of_int n with
  | Some fn => Ok (PyFloat.mul fn x)
  | None => Raise OverflowError
  end.

Definition int_add_float (n : Z) (x : float) : res float :=
  match PyFloat.of_int n with
  | Some fn => Ok (PyFloat.add fn x)
  | None => Raise OverflowError
  end.

(** ** Data model *)

Record DadosEntrada : Type := {
  F_base : float;
  N_emp : Z;
  Rp1 : float;
  Rp2 : float;
  N_loc : Z;
  R_loc : float;
  Aud_incl : Z;
  N_aud : Z;
  R_aud : float;
  m : float
}.

Record ResultadoCalculo : Type := {
  C_emp : float;
  C_loc : float;
  C_aud : float;
  Custo_bruto : float;
  Preco : float
}.

(** ** Pricing calculator *)

Definition calcular_custo_funcionarios (n_emp : Z) (rp1 rp2 : float) : res float :=
  t1 <~ int_mul_float (Z.min n_emp 100) rp1 ;;
  t2 <~ int_mul_float (Z.max 0 (n_emp - 100)) rp2 ;;
  Ok (PyFloat.add t1 t2).

Definition calcular_custo_postos (n_loc : Z) (r_loc : float) : res float :=
  int_mul_float n_loc r_loc.

Definition calcular_custo_audiencias_extras (n_aud aud_incl : Z) (r_aud : float)
  : res float :=
  int_mul_float (Z.max 0 (n_aud - aud_incl)) r_aud.

Definition calcular_precificacao (dados : DadosEntrada) : res ResultadoCalculo :=
  c_emp <~ calcular_custo_funcionarios (N_emp dados) (Rp1 dados) (Rp2 dados) ;;
  c_loc <~ calcular_custo_postos (N_loc dados) (R_loc dados) ;;
  c_aud <~ calcular_custo_audiencias_extras (N_aud dados) (Aud_incl dados) (R_aud dados) ;;
  let custo_bruto :=
    PyFloat.add (PyFloat.add (PyFloat.add (F_base dados) c_emp) c_loc) c_aud in
  um_mais_m <~ int_add_float 1 (m dados) ;;
  Ok {| C_emp := c_emp;
        C_loc := c_loc;
        C_aud := c_aud;
        Custo_bruto := custo_bruto;
        Preco := PyFloat.mul custo_bruto um_mais_m |}.

(** ** Messages *)

Definition msg_F_base : string := "O valor base deve ser positivo".
Definition msg_N_emp : string := "O número de funcionários deve ser positivo".
Definition msg_Rp : string := "As tarifas de funcionários devem ser positivas".
Definition msg_N_loc : string := "O número de postos deve ser positivo".
Definition msg_R_loc : string := "A tarifa por posto deve ser positiva".
Definition msg_aud : string := "O número de audiências deve ser positivo".
Definition msg_aud_ordem : string :=
  "O número total de audiências deve ser maior ou igual às audiências incluídas".
Definition msg_R_aud : string := "A tarifa por audiência extra deve ser positiva".
Definition msg_m_neg : string :=
  "A margem de lucro deve ser positiva (ex: 0.20 para 20%)".
Definition msg_m_alta : string :=
  "A margem de lucro parece muito alta. Use valores decimais (ex: 0.20 para 20%)".
Definition msg_malformado : string :=
  "Erro nos dados informados. Verifique se todos os campos estão preenchidos corretamente".
Definition msg_sucesso : string := "Cálculo realizado com sucesso!".
Definition msg_processar : string :=
  "Erro ao processar os dados. Verifique os valores informados.".
Definition msg_inesperado (e : exn) : string :=
  "Erro inesperado no cálculo: " +:+ exn_str e.

(** The messages of the business rules (as opposed to [msg_malformado]). *)
Definition mensagens_de_regra : list string :=
  [ msg_F_base; msg_N_emp; msg_Rp; msg_N_loc; msg_R_loc; msg_aud;
    msg_aud_ordem; msg_R_aud; msg_m_neg; msg_m_alta ].

(** ** Input validator and form processing *)

(** The business rules of [validar_dados_entrada], in the order of its [if]
    statements, on the ten parsed values. *)
Definition validar_regras (d : DadosEntrada) : bool * string :=
  if PyFloat.ltb (F_base d) (PyFloat.lit 0) then (false, msg_F_base)
  else if N_emp d <? 0 then (false, msg_N_emp)
  else if PyFloat.ltb (Rp1 d) (PyFloat.lit 0) || PyFloat.ltb (Rp2 d) (PyFloat.lit 0)
    then (false, msg_Rp)
  else if N_loc d <? 0 then (false, msg_N_loc)
  else if PyFloat.ltb (R_loc d) (PyFloat.lit 0) then (false, msg_R_loc)
  else if (Aud_incl d <? 0) || (N_aud d <? 0) then (false, msg_aud)
  else if N_aud d <? Aud_incl d then (false, msg_aud_ordem)
  else if PyFloat.ltb (R_aud d) (PyFloat.lit 0) then (false, msg_R_aud)
  else if PyFloat.ltb (m d) (PyFloat.lit 0) then (false, msg_m_neg)
  else if PyFloat.ltb (PyFloat.lit 10) (m d) then (false, msg_m_alta)
  else (true, EmptyString).

(** ** The request handler *)

Inductive metodo : Set := GET | POST.

(** What one request leaves behind: the [resultado] handed to the template,
    the flashed [(message, category)] pairs, and the records on which
    [calcular_precificacao] was called. *)
Record Resposta : Type := {
  resultado : option ResultadoCalculo;
  flashes : list (string * string);
  chamadas : list DadosEntrada
}.

Section Pipeline.

(** [float(s)] and [int(s)] on a string: [None] stands for [ValueError],
    the only exception these conversions raise on a string. *)
Variable py_float : string -> option float.
Variable py_int : string -> option Z.

(** [float(form_data.get(k, 0))] and [int(form_data.get(k, 0))] *)
Definition get_float (form_data : gmap string string) (k : string) : option float :=
  match form_data !! k with
  | Some s => py_float s
  | None => Some (PyFloat.lit 0)
  end.

Definition get_int (form_data : gmap string string) (k : string) : option Z :=
  match form_data !! k with
  | Some s => py_int s
  | None => Some 0
  end.

(** [float(form_data[k])] and [int(form_data[k])]: [None] stands for
    [KeyError] or [ValueError], which [processar_dados_formulario] catches
    together. *)
Definition item_float (form_data : gmap string string) (k : string) : option float :=
  s ← form_data !! k; py_float s.

Definition item_int (form_data : gmap string string) (k : string) : option Z :=
  s ← form_data !! k; py_int s.

(** The ten conversions at the head of [validar_dados_entrada], in order. *)
Definition ler_campos (form_data : gmap string string) : option DadosEntrada :=
  f_base ← get_float form_data "F_base";
  n_emp ← get_int form_data "N_emp";
  rp1 ← get_float form_data "Rp1";
  rp2 ← get_float form_data "Rp2";
  n_loc ← get_int form_data "N_loc";
  r_loc ← get_float form_data "R_loc";
  aud_incl ← get_int form_data "Aud_incl";
  n_aud ← get_int form_data "N_aud";
  r_aud ← get_float form_data "R_aud";
  margem ← get_float form_data "m";
  Some {| F_base := f_base; N_emp := n_emp; Rp1 := rp1; Rp2 := rp2;
          N_loc := n_loc; R_loc := r_loc; Aud_incl := aud_incl;
          N_aud := n_aud; R_aud := r_aud; m := margem |}.

(** The generic [except Exception] handler of the source is unreachable:
    the [try] block raises nothing but [ValueError]. *)
Definition validar_dados_entrada (form_data : gmap string string) : bool * string :=
  match ler_campos form_data with
  | Some d => validar_regras d
  | None => (false, msg_malformado)
  end.

Definition processar_dados_formulario (form_data : gmap string string)
  : option DadosEntrada :=
  f_base ← item_float form_data "F_base";
  n_emp ← item_int form_data "N_emp";
  rp1 ← item_float form_data "Rp1";
  rp2 ← item_float form_data "Rp2";
  n_loc ← item_int form_data "N_loc";
  r_loc ← item_float form_data "R_loc";
  aud_incl ← item_int form_data "Aud_incl";
  n_aud ← item_int form_data "N_aud";
  r_aud ← item_float form_data "R_aud";
  margem ← item_float form_data "m";
  Some {| F_base := f_base; N_emp := n_emp; Rp1 := rp1; Rp2 := rp2;
          N_loc := n_loc; R_loc := r_loc; Aud_incl := aud_incl;
          N_aud := n_aud; R_aud := r_aud; m := margem |}.

(** The request handler. *)
Definition index (met : metodo) (form_data : gmap string string) : Resposta :=
  match met with
  | GET => {| resultado := None; flashes := []; chamadas := [] |}
  | POST =>
      let '(valido, mensagem_erro) := validar_dados_entrada form_data in
      if negb valido then
        {| resultado := None; flashes := [(mensagem_erro, "error")]; chamadas := [] |}
      else
        match processar_dados_formulario form_data with
        | Some dados =>
            match calcular_precificacao dados with
            | Ok r =>
                {| resultado := Some r;
                   flashes := [(msg_sucesso, "success")];
                   chamadas := [dados] |}
            | Raise e =>
                {| resultado := None;
                   flashes := [(msg_inesperado e, "error")];
                   chamadas := [dados] |}
            end
        | None =>
            {| resultado := None;
               flashes := [(msg_processar, "error")];
               chamadas := [] |}
        end
  end.

End Pipeline.

(** ** The conversions on plain decimal numerals

    An instance of [float(s)] and [int(s)] for the strings a number input
    submits: an optional sign, ASCII digits, for [float] an optional
    fraction and exponent, and [inf], [infinity], [nan].  A decimal is
    rounded correctly (to nearest, ties to even), as CPython does.  Python
    accepts more (surrounding blanks, underscores, other digits, letter
    case); such strings are outside this instance. *)

Module Decimal.

Definition digito (c : ascii) : option Z :=
  let n := Z.of_N (N_of_ascii c) in
  if (48 <=? n) && (n <=? 57) then Some (n - 48) else None.

Fixpoint ler_digitos (s : string) (acc : Z) : option Z :=
  match s with
  | EmptyString => Some acc
  | String c s' =>
      match digito c with
      | Some d => ler_digitos s' (10 * acc + d)
      | None => None
      end
  end.

Definition ler_natural (s : string) : option Z :=
  match s with
  | EmptyString => None
  | _ => ler_digitos s 0
  end.

Definition separar_sinal (s : string) : bool * string :=
  match s with
  | String "-"%char s' => (true, s')
  | String "+"%char s' => (false, s')
  | _ => (false, s)
  end.

Definition ler_inteiro (s : string) : option Z :=
  let '(neg, corpo) := separar_sinal s in
  match ler_natural corpo with
  | Some n => Some (if neg then - n else n)
  | None => None
  end.

Definition py_int (s : string) : option Z := ler_inteiro s.

(** [s] cut at its first character satisfying [p]: what precedes it, and
    what follows it when there is one. *)
Fixpoint separar (p : ascii -> bool) (s : string) : string * option string :=
  match s with
  | EmptyString => (EmptyString, None)
  | String c s' =>
      if p c then (EmptyString, Some s')
      else let '(a, b) := separar p s' in (String c a, b)
  end.

Definition e_ponto (c : ascii) : bool := Ascii.eqb c "."%char.
Definition e_expoente (c : ascii) : bool := Ascii.eqb c "e"%char || Ascii.eqb c "E"%char.

(** The binary64 value nearest to [num / den], with sign [neg]. *)
Definition decimal_float (neg : bool) (num den : Z) : float :=
  match num with
  | Zpos _ =>
      let '(q, e, l) := SFdiv_core_binary PyFloat.prec PyFloat.emax num 0 den 0 in
      binary_round_aux PyFloat.prec PyFloat.emax neg q e l
  | _ => S754_zero neg
  end.

Definition py_float (s : string) : option float :=
  let '(neg, corpo) := separar_sinal s in
  if String.eqb corpo "inf" || String.eqb corpo "infinity" then Some (S754_infinity neg)
  else if String.eqb corpo "nan" then Some S754_nan
  else
    let '(mantissa, expoente) := separar e_expoente corpo in
    let '(inteira, fracao) := separar e_ponto mantissa in
    let casas := match fracao with Some f => f | None => EmptyString end in
    match ler_natural (String.append inteira casas),
          match expoente with Some x => ler_inteiro x | None => Some 0 end with
    | Some n, Some x =>
        let k := x - Z.of_nat (String.length casas) in
        Some (decimal_float neg (n * 10 ^ Z.max 0 k) (10 ^ Z.max 0 (- k)))
    | _, _ => None
    end.

End Decimal.

(** ** The business rules as a list

    A rule is a violation test on the parsed values with the message of its
    rejection; [primeira_violacao] is the message of the first rule of a
    list that is violated. *)

Definition regra : Type := (DadosEntrada -> bool) * string.

Fixpoint primeira_violacao (rs : list regra) (d : DadosEntrada) : option string :=
  match rs with
  | [] => None
  | (viola, msg) :: rs' => if viola d then Some msg else primeira_violacao rs' d
  end.

Definition veredito (v : option string) : bool * string :=
  match v with
  | Some msg => (false, msg)
  | None => (true, EmptyString)
  end.

Definition r_F_base : regra := (fun d => PyFloat.ltb (F_base d) (PyFloat.lit 0), msg_F_base).
Definition r_N_emp : regra := (fun d => N_emp d <? 0, msg_N_emp).
Definition r_Rp : regra :=
  (fun d => PyFloat.ltb (Rp1 d) (PyFloat.lit 0) || PyFloat.ltb (Rp2 d) (PyFloat.lit 0), msg_Rp).
Definition r_N_loc : regra := (fun d => N_loc d <? 0, msg_N_loc).
Definition r_R_loc : regra := (fun d => PyFloat.ltb (R_loc d) (PyFloat.lit 0), msg_R_loc).
Definition r_aud : regra := (fun d => (Aud_incl d <? 0) || (N_aud d <? 0), msg_aud).
Definition r_aud_ordem : regra := (fun d => N_aud d <? Aud_incl d, msg_aud_ordem).
Definition r_R_aud : regra := (fun d => PyFloat.ltb (R_aud d) (PyFloat.lit 0), msg_R_aud).
Definition r_m_neg : regra := (fun d => PyFloat.ltb (m d) (PyFloat.lit 0), msg_m_neg).
Definition r_m_alta : regra := (fun d => PyFloat.ltb (PyFloat.lit 10) (m d), msg_m_alta).

(** The order in which [validar_dados_entrada] tests the rules. *)
Definition regras_codigo : list regra :=
  [ r_F_base; r_N_emp; r_Rp; r_N_loc; r_R_loc; r_aud;
    r_aud_ordem; r_R_aud; r_m_neg; r_m_alta ].

(** The order the specification words: the non-negativity of every monetary
    and count field, then total hearings against included hearings, then the
    margin within [[0, 10]]. *)
Definition regras_spec : list regra :=
  [ r_F_base; r_N_emp; r_Rp; r_N_loc; r_R_loc; r_aud; r_R_aud;
    r_aud_ordem; r_m_neg; r_m_alta ].

(** ** Conditions on an input record *)

(** Every float field is a binary64 value (a Python float always is). *)
Definition dados_wf (d : DadosEntrada) : Prop :=
  PyFloat.wf (F_base d) /\ PyFloat.wf (Rp1 d) /\ PyFloat.wf (Rp2 d) /\
  PyFloat.wf (R_loc d) /\ PyFloat.wf (R_aud d) /\ PyFloat.wf (m d).

(** [0 <= x] for each of the ten fields. *)
Definition dados_nao_negativos (d : DadosEntrada) : Prop :=
  PyFloat.nonneg (F_base d) = true /\ 0 <= N_emp d /\
  PyFloat.nonneg (Rp1 d) = true /\ PyFloat.nonneg (Rp2 d) = true /\
  0 <= N_loc d /\ PyFloat.nonneg (R_loc d) = true /\
  0 <= Aud_incl d /\ 0 <= N_aud d /\
  PyFloat.nonneg (R_aud d) = true /\ PyFloat.nonneg (m d) = true.

(** The four rates and the margin are neither infinite nor NaN. *)
Definition tarifas_finitas (d : DadosEntrada) : Prop :=
  PyFloat.is_finite (Rp1 d) = true /\ PyFloat.is_finite (Rp2 d) = true /\
  PyFloat.is_finite (R_loc d) = true /\ PyFloat.is_finite (R_aud d) = true /\
  PyFloat.is_finite (m d) = true.

(** The two-bracket tariff as the specification words it: the first 100
    employees at tier 1, the remainder at tier 2. *)
Definition custo_por_faixas (n_emp : Z) (rp1 rp2 : float) : res float :=
  if n_emp <=? 100 then
    t1 <~ int_mul_float n_emp rp1 ;;
    t2 <~ int_mul_float 0 rp2 ;;
    Ok (PyFloat.add t1 t2)
  else
    t1 <~ int_mul_float 100 rp1 ;;
    t2 <~ int_mul_float (n_emp - 100) rp2 ;;
    Ok (PyFloat.add t1 t2).

(** The worked example of the specification; [0.20] is the binary64 value
    nearest to two tenths. *)
Definition margem_020 : float := S754_finite false 7205759403792794 (-55).

Definition dados_exemplo : DadosEntrada :=
  {| F_base := PyFloat.lit 1000; N_emp := 50;
     Rp1 := PyFloat.lit 25; Rp2 := PyFloat.lit 30;
     N_loc := 5; R_loc := PyFloat.lit 200;
     Aud_incl := 3; N_aud := 8; R_aud := PyFloat.lit 150;
     m := margem_020 |}.

Definition resultado_exemplo : ResultadoCalculo :=
  {| C_emp := PyFloat.lit 1250; C_loc := PyFloat.lit 1000;
     C_aud := PyFloat.lit 750; Custo_bruto := PyFloat.lit 4000;
     Preco := PyFloat.lit 4800 |}.

(** One tenth, as binary64. *)
Definition um_decimo : float := S754_finite false 7205759403792794 (-56).

(** All fields zero but an infinite tier-1 rate. *)
Definition dados_tarifa_infinita : DadosEntrada :=
  {| F_base := PyFloat.lit 0; N_emp := 0;
     Rp1 := PyFloat.inf; Rp2 := PyFloat.lit 0;
     N_loc := 0; R_loc := PyFloat.lit 0;
     Aud_incl := 0; N_aud := 0; R_aud := PyFloat.lit 0;
     m := PyFloat.lit 0 |}.

(** The ten field names of the form. *)
Definition campos : list string :=
  [ "F_base"; "N_emp"; "Rp1"; "Rp2"; "N_loc"; "R_loc";
    "Aud_incl"; "N_aud"; "R_aud"; "m" ]%string.

Section Leitura.

Variable py_float : string -> option float.
Variable py_int : string -> option Z.

(** Some field of the form parses to a negative value. *)
Definition float_negativo (form_data : gmap string string) (k : string) : Prop :=
  exists x, get_float py_float form_data k = Some x /\ PyFloat.negative x = true.

Definition int_negativo (form_data : gmap string string) (k : string) : Prop :=
  exists n, get_int py_int form_data k = Some n /\ n < 0.

Definition campo_negativo (form_data : gmap string string) : Prop :=
  float_negativo form_data "F_base" \/ int_negativo form_data "N_emp" \/
  float_negativo form_data "Rp1" \/ float_negativo form_data "Rp2" \/
  int_negativo form_data "N_loc" \/ float_negativo form_data "R_loc" \/
  int_negativo form_data "Aud_incl" \/ int_negativo form_data "N_aud" \/
  float_negativo form_data "R_aud" \/ float_negativo form_data "m".

End Leitura.

(** ** Forms used as examples *)

(** An empty submission. *)
Definition form_vazio : gmap string string := ∅.

(** Fewer total than included hearings, and a negative extra-hearing rate. *)
Definition form_ordem : gmap string string :=
  list_to_map
    [ ("F_base", "0"); ("N_emp", "0"); ("Rp1", "0"); ("Rp2", "0");
      ("N_loc", "0"); ("R_loc", "0"); ("Aud_incl", "3"); ("N_aud", "2");
      ("R_aud", "-1"); ("m", "0") ]%string.

(** A negative base fee beside an employee count that is no number. *)
Definition form_negativo_malformado : gmap string string :=
  list_to_map [ ("F_base", "-1"); ("N_emp", "abc") ]%string.

(** The worked example of the specification, as submitted. *)
Definition form_exemplo : gmap string string :=
  list_to_map
    [ ("F_base", "1000"); ("N_emp", "50"); ("Rp1", "25"); ("Rp2", "30");
      ("N_loc", "5"); ("R_loc", "200"); ("Aud_incl", "3"); ("N_aud", "8");
      ("R_aud", "150"); ("m", "0.20") ]%string.

(** Every field zero but an employee count of [10 ^ 400], in full. *)
Definition form_enorme : gmap string string :=
  list_to_map
    [ ("F_base", "0"); ("N_emp", String "1" (Nat.iter 400 (String "0") EmptyString));
      ("Rp1", "0"); ("Rp2", "0"); ("N_loc", "0"); ("R_loc", "0");
      ("Aud_incl", "0"); ("N_aud", "0"); ("R_aud", "0"); ("m", "0") ]%string.

(** The record read from [form_ordem]. *)
Definition dados_ordem : DadosEntrada :=
  {| F_base := PyFloat.lit 0; N_emp := 0;
     Rp1 := PyFloat.lit 0; Rp2 := PyFloat.lit 0;
     N_loc := 0; R_loc := PyFloat.lit 0;
     Aud_incl := 3; N_aud := 2; R_aud := PyFloat.round_int (-1);
     m := PyFloat.lit 0 |}.

(** One of the ten conversions at the head of the validator fails. *)
Definition conversao_falha (py_float : string -> option float)
  (py_int : string -> option Z) (form_data : gmap string string) : Prop :=
  get_float py_float form_data "F_base" = None \/
  get_int py_int form_data "N_emp" = None \/
  get_float py_float form_data "Rp1" = None \/
  get_float py_float form_data "Rp2" = None \/
  get_int py_int form_data "N_loc" = None \/
  get_float py_float form_data "R_loc" = None \/
  get_int py_int form_data "Aud_incl" = None \/
  get_int py_int form_data "N_aud" = None \/
  get_float py_float form_data "R_aud" = None \/
  get_float py_float form_data "m" = None.

(** No business rule is violated. *)
Definition regras_satisfeitas (d : DadosEntrada) : Prop :=
  PyFloat.negative (F_base d) = false /\ 0 <= N_emp d /\
  PyFloat.negative (Rp1 d) = false /\ PyFloat.negative (Rp2 d) = false /\
  0 <= N_loc d /\ PyFloat.negative (R_loc d) = false /\
  0 <= Aud_incl d /\ Aud_incl d <= N_aud d /\
  PyFloat.negative (R_aud d) = false /\
  PyFloat.negative (m d) = false /\ PyFloat.ltb (PyFloat.lit 10) (m d) = false.

(** The record [d] with another margin. *)
Definition com_margem (d : DadosEntrada) (x : float) : DadosEntrada :=
  {| F_base := F_base d; N_emp := N_emp d; Rp1 := Rp1 d; Rp2 := Rp2 d;
     N_loc := N_loc d; R_loc := R_loc d; Aud_incl := Aud_incl d;
     N_aud := N_aud d; R_aud := R_aud d; m := x |}.

(** The worked example with a NaN margin, a zero margin and a ten-percent
    margin, and the results of the last two. *)
Definition dados_margem_nan : DadosEntrada := com_margem dados_exemplo PyFloat.nan.

Definition dados_margem_zero : DadosEntrada := com_margem dados_exemplo (PyFloat.lit 0).

Definition resultado_margem_zero : ResultadoCalculo :=
  {| C_emp := PyFloat.lit 1250; C_loc := PyFloat.lit 1000;
     C_aud := PyFloat.lit 750; Custo_bruto := PyFloat.lit 4000;
     Preco := PyFloat.lit 4000 |}.

Definition resultado_margem_010 : ResultadoCalculo :=
  {| C_emp := PyFloat.lit 1250; C_loc := PyFloat.lit 1000;
     C_aud := PyFloat.lit 750; Custo_bruto := PyFloat.lit 4000;
     Preco := PyFloat.lit 4400 |}.

(** * Binary64 arithmetic: exact values and rounding

    Every finite binary64 value, and every exact sum or product of two of
    them, is an integer multiple of [2 ^ -2148].  [val] is the exact value of
    a float in that unit, with the infinities at [+-TOP]; [RN] rounds an
    exact non-negative value to nearest, ties to even, on the binary64 grid,
    and [G] saturates it at [TOP].  The lemmas below show that conversion
    from [int], multiplication and addition of [spec_float] compute [G] of
    the exact result, and that comparison of floats is comparison of
    values. *)

Module Binary64.

Definition loc_spec (rho t : Z) : location :=
  if rho =? 0 then loc_Exact else loc_Inexact (2 * rho ?= t).

Definition shr_inv (M j : Z) (mrs : shr_record) : Prop :=
  shr_m mrs = M / 2 ^ j /\ loc_of_shr_record mrs = loc_spec (M mod 2 ^ j) (2 ^ j).

Definition rne_div (M t : Z) : Z :=
  round_nearest_even (M / t) (loc_spec (M mod t) t).

Definition SC : Z := 2148.
Definition TOP : Z := 2 ^ (PyFloat.emax + SC).

Definition pack (s : bool) (c e1 : Z) : spec_float :=
  let '(mrs, e2) := shr_fexp PyFloat.prec PyFloat.emax c e1 loc_Exact in
  match shr_m mrs with
  | Z0 => S754_zero s
  | Zpos m => if e2 <=? PyFloat.emax - PyFloat.prec then S754_finite s m e2 else S754_infinity s
  | Zneg _ => S754_nan
  end.

Definition mag (x : spec_float) : Z :=
  match x with
  | S754_zero _ => 0
  | S754_finite _ m e => Zpos m * 2 ^ (e + SC)
  | S754_infinity _ => TOP
  | S754_nan => 0
  end.

(** shape of a rounded result with sign [s] *)
Definition shaped (s : bool) (x : spec_float) : Prop :=
  match x with
  | S754_zero s' => s' = s
  | S754_infinity s' => s' = s
  | S754_finite s' m e => s' = s /\ bounded PyFloat.prec PyFloat.emax m e = true
  | S754_nan => False
  end.

Definition pack_ok (c e1 : Z) : Prop :=
  -1074 <= e1 /\ 0 <= c <= 2 ^ 53 /\ (c < 2 ^ 52 -> e1 = -1074).

Definition U (N : Z) : Z := fexp PyFloat.prec PyFloat.emax (Zdigits2 N - SC) + SC.
Definition RN (N : Z) : Z := rne_div N (2 ^ U N) * 2 ^ U N.

(** signed value, in units of 2^-2148; infinities at +-TOP *)
Definition val (x : spec_float) : Z :=
  match x with
  | S754_zero _ => 0
  | S754_finite s m e => cond_Zopp s (Z.pos m * 2 ^ (e + SC))
  | S754_infinity s => cond_Zopp s TOP
  | S754_nan => 0
  end.

Definition okf (x : spec_float) : bool :=
  match x with
  | S754_nan => false
  | _ => valid_binary PyFloat.prec PyFloat.emax x
  end.

Definition G (N : Z) : Z := Z.min (RN N) TOP.

Definition Gs (N : Z) : Z := if N <? 0 then - G (- N) else G N.

Definition hv (x : spec_float) : Z :=
  match x with
  | S754_finite s m e => cond_Zopp s (Z.pos m * 2 ^ (e + 1074))
  | _ => 0
  end.

Lemma digits2_pos_size (p : positive) : digits2_pos p = Pos.size p.
Proof. induction p; simpl; congruence. Qed.

Lemma Zdigits2_log2 (n : Z) : 0 < n -> Zdigits2 n = Z.log2 n + 1.
Proof.
  destruct n as [|p|p]; try lia. intros _. simpl.
  rewrite digits2_pos_size. destruct p; simpl; lia.
Qed.

Lemma Zdigits2_bounds (n : Z) : 0 < n -> 2 ^ (Zdigits2 n - 1) <= n < 2 ^ Zdigits2 n.
Proof.
  intros H. rewrite Zdigits2_log2 by lia.
  replace (Z.log2 n + 1 - 1) with (Z.log2 n) by lia.
  replace (Z.log2 n + 1) with (Z.succ (Z.log2 n)) by lia.
  apply Z.log2_spec. lia.
Qed.

Lemma Zdigits2_nonneg n : 0 <= n -> 0 <= Zdigits2 n.
Proof. destruct n; simpl; lia. Qed.

Lemma Zdigits2_unique (n d : Z) : 2 ^ (d - 1) <= n < 2 ^ d -> 0 < n -> Zdigits2 n = d.
Proof.
  intros H Hn. rewrite Zdigits2_log2 by lia.
  assert (0 <= d - 1 \/ d - 1 < 0) as [Hd|Hd] by lia.
  - rewrite (Z.log2_unique n (d - 1)); try lia.
    replace (Z.succ (d - 1)) with d by lia. lia.
  - assert (d <= 0) by lia.
    assert (2 ^ d <= 1). { destruct (Z.eq_dec d 0) as [->|]; [simpl; lia|]. rewrite Z.pow_neg_r; lia. }
    lia.
Qed.

Lemma Zdigits2_mono (a b : Z) : 0 <= a <= b -> Zdigits2 a <= Zdigits2 b.
Proof.
  intros [Ha Hab].
  destruct (Z.eq_dec a 0) as [->|Hn].
  - simpl. apply Zdigits2_nonneg. lia.
  - rewrite !Zdigits2_log2 by lia. pose proof (Z.log2_le_mono a b Hab). lia.
Qed.

Lemma shr_1_nonneg m r s :
  0 <= m -> shr_1 (Build_shr_record m r s) = Build_shr_record (m / 2) (Z.odd m) (r || s).
Proof.
  intros Hm. destruct m as [|p|p]; try lia.
  - reflexivity.
  - destruct p as [p|p|]; unfold shr_1.
    + f_equal. rewrite Pos2Z.inj_xI. apply Z.div_unique with 1; lia.
    + f_equal. rewrite Pos2Z.inj_xO. apply Z.div_unique with 0; lia.
    + reflexivity.
Qed.

Lemma loc_spec_sticky mrs rho t :
  loc_of_shr_record mrs = loc_spec rho t ->
  (shr_r mrs || shr_s mrs) = negb (rho =? 0).
Proof.
  unfold loc_spec. destruct mrs as [m [|] [|]]; simpl;
  destruct (rho =? 0); simpl; congruence.
Qed.

Lemma shr_inv_step M j mrs :
  0 <= M -> 0 <= j -> shr_inv M j mrs -> shr_inv M (j + 1) (shr_1 mrs).
Proof.
  intros HM Hj [Hm Hl].
  pose proof (loc_spec_sticky _ _ _ Hl) as Hs.
  destruct mrs as [m0 r s]. simpl in Hm, Hs.
  assert (Hp : 0 < 2 ^ j) by (apply Z.pow_pos_nonneg; lia).
  assert (Hm0 : 0 <= m0) by (subst m0; apply Z.div_pos; lia).
  rewrite shr_1_nonneg by exact Hm0.
  assert (E2 : 2 ^ (j + 1) = 2 ^ j * 2) by (rewrite Z.pow_add_r by lia; lia).
  assert (Hrem : M mod 2 ^ (j + 1) = M mod 2 ^ j + 2 ^ j * (m0 mod 2)).
  { rewrite E2, Z.rem_mul_r by lia. subst m0. reflexivity. }
  assert (Hrho : 0 <= M mod 2 ^ j < 2 ^ j) by (apply Z.mod_pos_bound; lia).
  split.
  - simpl. subst m0. rewrite Z.div_div by lia. rewrite E2. reflexivity.
  - rewrite Hrem. unfold loc_spec. rewrite E2. simpl. rewrite Hs.
    rewrite Zodd_mod.
    pose proof (Z.mod_pos_bound m0 2 ltac:(lia)) as Hb.
    destruct (Z.eqb_spec (M mod 2 ^ j) 0) as [Hz|Hz]; simpl;
    destruct (Z.eqb_spec (m0 mod 2) 1) as [Ho|Ho]; simpl.
    + rewrite Hz, Ho. destruct (Z.eqb_spec (0 + 2 ^ j * 1) 0); [lia|].
      f_equal. symmetry. apply Z.compare_eq_iff. lia.
    + assert (m0 mod 2 = 0) as -> by lia. rewrite Hz.
      destruct (Z.eqb_spec (0 + 2 ^ j * 0) 0); [reflexivity|lia].
    + rewrite Ho. destruct (Z.eqb_spec (M mod 2 ^ j + 2 ^ j * 1) 0); [lia|].
      f_equal. symmetry. apply Z.compare_gt_iff. lia.
    + assert (m0 mod 2 = 0) as -> by lia.
      destruct (Z.eqb_spec (M mod 2 ^ j + 2 ^ j * 0) 0); [lia|].
      f_equal. symmetry. apply Z.compare_lt_iff. lia.
Qed.

Lemma shr_inv_iter (p : positive) : forall M j mrs,
  0 <= M -> 0 <= j -> shr_inv M j mrs -> shr_inv M (j + Zpos p) (SpecFloat.iter_pos shr_1 p mrs).
Proof.
  induction p as [p IH|p IH|]; intros M j mrs HM Hj Hinv; simpl.
  - replace (j + Z.pos p~1) with (j + 1 + Z.pos p + Z.pos p) by lia.
    apply IH; try lia. apply IH; try lia. apply shr_inv_step; assumption.
  - replace (j + Z.pos p~0) with (j + Z.pos p + Z.pos p) by lia.
    apply IH; try lia. apply IH; try lia. assumption.
  - apply shr_inv_step; assumption.
Qed.

Lemma shr_inv_init M : shr_inv M 0 (Build_shr_record M false false).
Proof.
  split; simpl.
  - rewrite Z.div_1_r. reflexivity.
  - rewrite Z.mod_1_r. reflexivity.
Qed.

Lemma shr_exact_spec M e n :
  0 <= M ->
  exists mrs, shr (shr_record_of_loc M loc_Exact) e n = (mrs, e + Z.max n 0)
              /\ shr_inv M (Z.max n 0) mrs.
Proof.
  intros HM. simpl. destruct n as [|p|p]; simpl.
  - eexists; split; [f_equal; lia|]. apply shr_inv_init.
  - eexists; split; [reflexivity|].
    change (Z.pos p) with (0 + Z.pos p). apply shr_inv_iter; try lia. apply shr_inv_init.
  - eexists; split; [f_equal; lia|]. apply shr_inv_init.
Qed.

Lemma rne_of_inv M j mrs :
  shr_inv M j mrs ->
  round_nearest_even (shr_m mrs) (loc_of_shr_record mrs) = rne_div M (2 ^ j).
Proof. intros [-> ->]. reflexivity. Qed.

(** properties of rne_div *)
Lemma rne_div_bounds M t : 0 < t ->
  M / t <= rne_div M t <= M / t + 1.
Proof.
  intros Ht. unfold rne_div, loc_spec, round_nearest_even.
  destruct (M mod t =? 0); [lia|].
  destruct (2 * (M mod t) ?= t); try lia.
  destruct (Z.even (M / t)); lia.
Qed.

Lemma rne_div_exact M t : M mod t = 0 -> rne_div M t = M / t.
Proof. intros H. unfold rne_div, loc_spec. rewrite H. reflexivity. Qed.

Lemma rne_div_mul c t : 0 < t -> rne_div (c * t) t = c.
Proof.
  intros Ht. rewrite rne_div_exact.
  - apply Z.div_mul; lia.
  - apply Z.mod_mul; lia.
Qed.

Lemma rne_div_mono M1 M2 t : 0 < t -> M1 <= M2 -> rne_div M1 t <= rne_div M2 t.
Proof.
  intros Ht HM.
  pose proof (Z.div_le_mono M1 M2 t ltac:(lia) HM) as Hq.
  pose proof (rne_div_bounds M1 t Ht) as B1.
  pose proof (rne_div_bounds M2 t Ht) as B2.
  destruct (Z.eq_dec (M1 / t) (M2 / t)) as [Heq|Hne]; [|lia].
  clear B1 B2 Hq.
  assert (Hr : M1 mod t <= M2 mod t).
  { rewrite !Z.mod_eq by lia. rewrite Heq. lia. }
  pose proof (Z.mod_pos_bound M1 t Ht). pose proof (Z.mod_pos_bound M2 t Ht).
  unfold rne_div, loc_spec, round_nearest_even. rewrite <- Heq.
  destruct (Z.eqb_spec (M1 mod t) 0) as [Hz1|Hz1];
  destruct (Z.eqb_spec (M2 mod t) 0) as [Hz2|Hz2]; try lia;
  try destruct (Z.compare_spec (2 * (M1 mod t)) t);
  try destruct (Z.compare_spec (2 * (M2 mod t)) t); try lia;
  destruct (IntDef.Z.even (M1 / t)); lia.
Qed.

Lemma rne_div_scale M t c : 0 < t -> 0 < c -> rne_div (M * c) (t * c) = rne_div M t.
Proof.
  intros Ht Hc. unfold rne_div, loc_spec.
  rewrite Z.div_mul_cancel_r by lia.
  rewrite Z.mul_mod_distr_r by lia.
  destruct (Z.eqb_spec (M mod t) 0) as [Hz|Hz].
  - rewrite Hz. reflexivity.
  - destruct (Z.eqb_spec (M mod t * c) 0) as [Hz'|Hz']; [nia|].
    replace (2 * (M mod t * c)) with (2 * (M mod t) * c) by lia.
    rewrite <- Zmult_compare_compat_r by lia. reflexivity.
Qed.

Lemma fexp_eq e : fexp PyFloat.prec PyFloat.emax e = Z.max (e - 53) (-1074).
Proof. reflexivity. Qed.

Lemma bra_unfold s M e :
  0 <= M ->
  binary_round_aux PyFloat.prec PyFloat.emax s M e loc_Exact =
  pack s (rne_div M (2 ^ Z.max (fexp PyFloat.prec PyFloat.emax (Zdigits2 M + e) - e) 0))
         (e + Z.max (fexp PyFloat.prec PyFloat.emax (Zdigits2 M + e) - e) 0).
Proof.
  intros HM. unfold binary_round_aux, pack.
  unfold shr_fexp at 1.
  destruct (shr_exact_spec M e (fexp PyFloat.prec PyFloat.emax (Zdigits2 M + e) - e) HM) as (mrs & Heq & Hinv).
  rewrite Heq. rewrite (rne_of_inv _ _ _ Hinv). reflexivity.
Qed.

Lemma pow2_mono a b : 0 <= a <= b -> 2 ^ a <= 2 ^ b.
Proof. intros. apply Z.pow_le_mono_r; lia. Qed.

Lemma pow2_pos a : 0 <= a -> 0 < 2 ^ a.
Proof. intros. apply Z.pow_pos_nonneg; lia. Qed.

Lemma pow2_split a b : 0 <= a -> 0 <= b -> 2 ^ (a + b) = 2 ^ a * 2 ^ b.
Proof. intros. apply Z.pow_add_r; lia. Qed.

Lemma pack_spec s c e1 :
  pack_ok c e1 ->
  shaped s (pack s c e1) /\ mag (pack s c e1) = Z.min (c * 2 ^ (e1 + SC)) TOP.
Proof.
  intros (He & Hc & Hsub).
  assert (Hpe : 0 < 2 ^ (e1 + SC)) by (apply pow2_pos; unfold SC; lia).
  destruct (Z.eq_dec c 0) as [->|Hc0].
  { unfold pack, shr_fexp. simpl Zdigits2. rewrite fexp_eq.
    replace (Z.max (0 + e1 - 53) (-1074) - e1) with (- (e1 + 1074)) by lia.
    unfold shr. destruct (- (e1 + 1074)) eqn:E; try lia; simpl; split; auto;
      unfold TOP; pose proof (pow2_pos (PyFloat.emax + SC) ltac:(unfold PyFloat.emax, SC; lia)); lia. }
  destruct (Z.eq_dec c (2 ^ 53)) as [->|Hc53].
  { unfold pack, shr_fexp.
    replace (Zdigits2 (2 ^ 53)) with 54 by reflexivity. rewrite fexp_eq.
    replace (Z.max (54 + e1 - 53) (-1074) - e1) with 1 by lia.
    change (shr (shr_record_of_loc (2 ^ 53) loc_Exact) e1 1)
      with (Build_shr_record (2 ^ 52) false false, e1 + 1).
    cbv beta iota. change (shr_m {| shr_m := 2 ^ 52; shr_r := false; shr_s := false |}) with (Z.pos (2 ^ 52)%positive).
    cbv beta iota.
    destruct (Z.leb_spec (e1 + 1) (PyFloat.emax - PyFloat.prec)) as [Hle|Hgt]; unfold PyFloat.emax, PyFloat.prec in *.
    - split.
      + simpl. split; auto. unfold bounded, canonical_mantissa.
        change (Z.pos (digits2_pos (2 ^ 52))) with 53. rewrite fexp_eq.
        apply andb_true_intro; split; [apply Z.eqb_eq; lia | apply Z.leb_le; unfold PyFloat.emax, PyFloat.prec; lia].
      + unfold mag. change (Z.pos (2 ^ 52)) with (2 ^ 52).
        replace (e1 + 1 + SC) with (1 + (e1 + SC)) by lia.
        rewrite (pow2_split 1) by (unfold SC; lia).
        assert (2 ^ 53 * 2 ^ (e1 + SC) < TOP).
        { unfold TOP, PyFloat.emax. replace (1024 + SC) with (53 + (971 + SC)) by lia.
          rewrite (pow2_split 53) by (unfold SC; lia).
          pose proof (pow2_mono (e1 + SC + 1) (971 + SC) ltac:(unfold SC; lia)).
          rewrite (pow2_split (e1 + SC) 1) in H by (unfold SC; lia). nia. }
        change (2 ^ 1) with 2. change (2 ^ 53) with (2 * 2 ^ 52) in *. lia.
    - split; [reflexivity|]. unfold mag.
      assert (TOP <= 2 ^ 53 * 2 ^ (e1 + SC)).
      { unfold TOP, PyFloat.emax. replace (1024 + SC) with (53 + (971 + SC)) by lia.
        rewrite (pow2_split 53) by (unfold SC; lia).
        pose proof (pow2_mono (971 + SC) (e1 + SC) ltac:(unfold SC; lia)). nia. }
      lia. }
  assert (Hd : 0 < c < 2 ^ 53) by lia.
  pose proof (Zdigits2_bounds c ltac:(lia)) as Hdb.
  assert (Hdig : Zdigits2 c <= 53).
  { destruct (Z_lt_le_dec 53 (Zdigits2 c)) as [Hgt|]; [|lia].
    pose proof (pow2_mono 53 (Zdigits2 c - 1) ltac:(lia)). lia. }
  assert (Hfe : fexp PyFloat.prec PyFloat.emax (Zdigits2 c + e1) = e1).
  { rewrite fexp_eq. destruct (Z.eq_dec (Zdigits2 c) 53) as [E|E]; [lia|].
    assert (c < 2 ^ 52).
    { pose proof (pow2_mono (Zdigits2 c) 52 ltac:(pose proof (Zdigits2_nonneg c); lia)). lia. }
    lia. }
  unfold pack, shr_fexp. rewrite Hfe, Z.sub_diag. simpl shr.
  destruct c as [|p|p]; try lia. simpl shr_m. cbv beta iota.
  destruct (Z.leb_spec e1 (PyFloat.emax - PyFloat.prec)) as [Hle|Hgt]; unfold PyFloat.emax, PyFloat.prec in *.
  - split.
    + simpl. split; auto. unfold bounded, canonical_mantissa.
      apply andb_true_intro; split; [apply Z.eqb_eq; exact Hfe | apply Z.leb_le; unfold PyFloat.emax, PyFloat.prec; lia].
    + unfold mag.
      assert (Z.pos p * 2 ^ (e1 + SC) < TOP).
      { unfold TOP, PyFloat.emax. replace (1024 + SC) with (53 + (971 + SC)) by lia.
        rewrite (pow2_split 53) by (unfold SC; lia).
        pose proof (pow2_mono (e1 + SC) (971 + SC) ltac:(unfold SC; lia)). nia. }
      lia.
  - split; [reflexivity|]. unfold mag.
    assert (2 ^ 52 <= Z.pos p) by lia.
    assert (TOP <= Z.pos p * 2 ^ (e1 + SC)).
    { unfold TOP, PyFloat.emax. replace (1024 + SC) with (52 + (972 + SC)) by lia.
      rewrite (pow2_split 52) by (unfold SC; lia).
      pose proof (pow2_mono (972 + SC) (e1 + SC) ltac:(unfold SC; lia)). nia. }
    lia.
Qed.

Lemma Zdigits2_shift M j : 0 < M -> 0 <= j -> Zdigits2 (M * 2 ^ j) = Zdigits2 M + j.
Proof.
  intros HM Hj. pose proof (Zdigits2_bounds M HM) as Hb.
  pose proof (Zdigits2_nonneg M ltac:(lia)) as Hd.
  pose proof (pow2_pos j Hj) as Hp.
  assert (1 <= Zdigits2 M).
  { destruct M; simpl in *; lia. }
  apply Zdigits2_unique; [|nia].
  replace (Zdigits2 M + j - 1) with (Zdigits2 M - 1 + j) by lia.
  rewrite !pow2_split by lia. nia.
Qed.

Lemma U_bounds N : 1074 <= U N.
Proof. unfold U. rewrite fexp_eq. unfold SC. lia. Qed.

Lemma round_pack_ok M e :
  0 < M -> e <= fexp PyFloat.prec PyFloat.emax (Zdigits2 M + e) ->
  pack_ok (rne_div M (2 ^ (fexp PyFloat.prec PyFloat.emax (Zdigits2 M + e) - e)))
          (fexp PyFloat.prec PyFloat.emax (Zdigits2 M + e)).
Proof.
  intros HM Hk. pose proof (Zdigits2_bounds M HM) as Hb.
  assert (Hd1 : 1 <= Zdigits2 M) by (destruct M; simpl in *; lia).
  remember (Zdigits2 M) as d eqn:Ed0. clear Ed0.
  remember (fexp PyFloat.prec PyFloat.emax (d + e) - e) as k eqn:Ek0.
  assert (Hk0 : 0 <= k) by lia.
  pose proof (pow2_pos k Hk0) as Hpk.
  pose proof (rne_div_bounds M (2 ^ k) Hpk) as Hc.
  rewrite fexp_eq in *.
  destruct (Z_le_gt_dec (-1074) (d + e - 53)) as [Hn|Hs].
  - assert (Ek : k = d - 53) by lia.
    assert (2 ^ 52 <= M / 2 ^ k).
    { apply Z.div_le_lower_bound; [lia|].
      replace (d - 1) with (k + 52) in Hb by lia. rewrite pow2_split in Hb by lia. lia. }
    assert (M / 2 ^ k < 2 ^ 53).
    { apply Z.div_lt_upper_bound; [lia|].
      replace d with (k + 53) in Hb at 2 by lia. rewrite pow2_split in Hb by lia. lia. }
    unfold pack_ok. lia.
  - assert (Ek : k = -1074 - e) by lia.
    assert (M / 2 ^ k < 2 ^ 52).
    { apply Z.div_lt_upper_bound; [lia|].
      pose proof (pow2_mono d (k + 52) ltac:(lia)) as Hm.
      rewrite pow2_split in Hm by lia. lia. }
    pose proof (Z.div_pos M (2 ^ k) ltac:(lia) Hpk).
    unfold pack_ok. change (2 ^ 53) with (2 * 2 ^ 52). lia.
Qed.

Lemma bra_spec s M e :
  0 < M -> - SC <= e -> e <= fexp PyFloat.prec PyFloat.emax (Zdigits2 M + e) ->
  shaped s (binary_round_aux PyFloat.prec PyFloat.emax s M e loc_Exact) /\
  mag (binary_round_aux PyFloat.prec PyFloat.emax s M e loc_Exact) = G (M * 2 ^ (e + SC)).
Proof.
  intros HM He Hk.
  rewrite bra_unfold by lia.
  rewrite Z.max_l by lia.
  replace (e + (fexp PyFloat.prec PyFloat.emax (Zdigits2 M + e) - e)) with (fexp PyFloat.prec PyFloat.emax (Zdigits2 M + e)) by lia.
  pose proof (round_pack_ok M e HM Hk) as Hok.
  destruct (pack_spec s _ _ Hok) as [Hsh Hmag].
  split; [exact Hsh|]. rewrite Hmag. unfold G. f_equal.
  unfold RN, U.
  rewrite Zdigits2_shift by lia.
  replace (Zdigits2 M + (e + SC) - SC) with (Zdigits2 M + e) by lia.
  set (e1 := fexp PyFloat.prec PyFloat.emax (Zdigits2 M + e)) in *.
  replace (e1 + SC) with ((e1 - e) + (e + SC)) at 2 3 by lia.
  rewrite (pow2_split (e1 - e)) by lia.
  rewrite rne_div_scale by (apply pow2_pos; lia).
  replace (e1 + SC) with ((e1 - e) + (e + SC)) by lia.
  rewrite (pow2_split (e1 - e)) by lia. reflexivity.
Qed.

Lemma Pos_iter_xO m d : Z.pos (Pos.iter xO m d) = Z.pos m * 2 ^ Z.pos d.
Proof.
  rewrite <- Z.shiftl_mul_pow2 by lia.
  unfold Z.shiftl.
  apply Pos.iter_swap_gen. intros a. reflexivity.
Qed.

Lemma br_spec s m e :
  - SC <= e ->
  shaped s (binary_round PyFloat.prec PyFloat.emax s m e) /\
  mag (binary_round PyFloat.prec PyFloat.emax s m e) = G (Z.pos m * 2 ^ (e + SC)).
Proof.
  intros He. unfold binary_round, shl_align.
  set (d := Z.pos (digits2_pos m)).
  assert (Ed : Zdigits2 (Z.pos m) = d) by reflexivity.
  destruct (fexp PyFloat.prec PyFloat.emax (d + e) - e) as [|p|p] eqn:Ek.
  - destruct (bra_spec s (Z.pos m) e) as [H1 H2]; try lia.
    { rewrite Ed. lia. }
    split; assumption.
  - destruct (bra_spec s (Z.pos m) e) as [H1 H2]; try lia.
    { rewrite Ed. lia. }
    split; assumption.
  - assert (Hfe : fexp PyFloat.prec PyFloat.emax (d + e) = e - Z.pos p) by lia.
    assert (Hmin : -1074 <= fexp PyFloat.prec PyFloat.emax (d + e)) by (rewrite fexp_eq; lia).
    destruct (bra_spec s (Z.pos (Pos.iter xO m p)) (fexp PyFloat.prec PyFloat.emax (d + e))) as [H1 H2]; try lia.
    { unfold SC; lia. }
    { rewrite Pos_iter_xO, Zdigits2_shift, Ed by lia.
      replace (d + Z.pos p + fexp PyFloat.prec PyFloat.emax (d + e)) with (d + e) by lia. lia. }
    split; [exact H1|]. rewrite H2. f_equal.
    rewrite Pos_iter_xO, Hfe.
    replace (e + SC) with (Z.pos p + (e - Z.pos p + SC)) by lia.
    rewrite (pow2_split (Z.pos p)) by (unfold SC in *; lia). lia.
Qed.

Lemma bounded_inv m e :
  bounded PyFloat.prec PyFloat.emax m e = true ->
  -1074 <= e <= 971 /\ Z.pos m < 2 ^ 53 /\ (-1074 < e -> 2 ^ 52 <= Z.pos m) /\
  fexp PyFloat.prec PyFloat.emax (Z.pos (digits2_pos m) + e) = e.
Proof.
  unfold bounded, canonical_mantissa. intros H.
  apply andb_prop in H. destruct H as [H1 H2].
  apply Z.eqb_eq in H1. apply Z.leb_le in H2. unfold PyFloat.emax, PyFloat.prec in H2.
  pose proof (Zdigits2_bounds (Z.pos m) ltac:(lia)) as Hb.
  change (Zdigits2 (Z.pos m)) with (Z.pos (digits2_pos m)) in Hb.
  pose proof H1 as H1'. rewrite fexp_eq in H1'.
  remember (Z.pos (digits2_pos m)) as d eqn:Ed.
  assert (Hd : 1 <= d) by lia.
  repeat split; try lia.
  - assert (d <= 53) by lia.
    pose proof (pow2_mono d 53 ltac:(lia)). lia.
  - intros He. assert (E53 : d = 53) by lia. rewrite E53 in Hb.
    change (53 - 1) with 52 in Hb. lia.
Qed.

Lemma TOP_pos : 0 < TOP.
Proof. apply pow2_pos. unfold PyFloat.emax, SC. lia. Qed.

Lemma bounded_lt_TOP m e : bounded PyFloat.prec PyFloat.emax m e = true -> 0 < Z.pos m * 2 ^ (e + SC) < TOP.
Proof.
  intros H. destruct (bounded_inv m e H) as (He & Hm & _).
  pose proof (pow2_pos (e + SC) ltac:(unfold SC; lia)).
  split; [lia|]. unfold TOP, PyFloat.emax.
  replace (1024 + SC) with (53 + (971 + SC)) by lia.
  rewrite (pow2_split 53) by (unfold SC; lia).
  pose proof (pow2_mono (e + SC) (971 + SC) ltac:(unfold SC; lia)). nia.
Qed.

Lemma canon_compare m1 e1 m2 e2 :
  bounded PyFloat.prec PyFloat.emax m1 e1 = true -> bounded PyFloat.prec PyFloat.emax m2 e2 = true ->
  match e1 ?= e2 with
  | Lt => Lt
  | Gt => Gt
  | Eq => Pos.compare_cont Eq m1 m2
  end = (Z.pos m1 * 2 ^ (e1 + SC) ?= Z.pos m2 * 2 ^ (e2 + SC)).
Proof.
  intros H1 H2.
  destruct (bounded_inv _ _ H1) as (He1 & Hm1 & Hn1 & _).
  destruct (bounded_inv _ _ H2) as (He2 & Hm2 & Hn2 & _).
  pose proof (pow2_pos (e1 + SC) ltac:(unfold SC; lia)).
  pose proof (pow2_pos (e2 + SC) ltac:(unfold SC; lia)).
  destruct (Z.compare_spec e1 e2) as [E|E|E].
  - subst e2. fold (Pos.compare m1 m2). rewrite Pos2Z.inj_compare.
    apply Zmult_compare_compat_r. lia.
  - symmetry. apply Z.compare_lt_iff.
    pose proof (pow2_mono (e1 + SC + 1) (e2 + SC) ltac:(unfold SC; lia)) as Hp.
    rewrite pow2_split in Hp by (unfold SC; lia). change (2 ^ 1) with 2 in Hp.
    change (2 ^ 53) with (2 * 2 ^ 52) in *. specialize (Hn2 ltac:(lia)). nia.
  - symmetry. apply Z.compare_gt_iff.
    pose proof (pow2_mono (e2 + SC + 1) (e1 + SC) ltac:(unfold SC; lia)) as Hp.
    rewrite pow2_split in Hp by (unfold SC; lia). change (2 ^ 1) with 2 in Hp.
    change (2 ^ 53) with (2 * 2 ^ 52) in *. specialize (Hn1 ltac:(lia)). nia.
Qed.

Ltac compare_by_lia :=
  f_equal; symmetry;
  first [apply Z.compare_eq_iff | apply Z.compare_lt_iff | apply Z.compare_gt_iff]; lia.

Lemma SFcompare_val x y :
  okf x = true -> okf y = true -> SFcompare x y = Some (val x ?= val y).
Proof.
  pose proof TOP_pos as HT.
  destruct x as [sx|sx| |sx mx ex], y as [sy|sy| |sy my ey];
    cbn [okf valid_binary val SFcompare]; try discriminate; intros Hx Hy;
    try (pose proof (bounded_lt_TOP _ _ Hx)); try (pose proof (bounded_lt_TOP _ _ Hy)).
  - reflexivity.
  - destruct sy; cbn [cond_Zopp]; compare_by_lia.
  - destruct sy; cbn [cond_Zopp]; compare_by_lia.
  - destruct sx; cbn [cond_Zopp]; compare_by_lia.
  - destruct sx, sy; cbn [cond_Zopp]; compare_by_lia.
  - destruct sx, sy; cbn [cond_Zopp]; compare_by_lia.
  - destruct sx; cbn [cond_Zopp]; compare_by_lia.
  - destruct sx, sy; cbn [cond_Zopp]; compare_by_lia.
  - destruct sx, sy; cbn [cond_Zopp]; try compare_by_lia; f_equal.
    + rewrite Z.compare_opp.
      rewrite <- (canon_compare my ey mx ex Hy Hx).
      destruct (Z.compare_spec ex ey); destruct (Z.compare_spec ey ex); try lia; try reflexivity.
      apply (Pos.compare_cont_antisym mx my Eq).
    + apply canon_compare; assumption.
Qed.

Lemma SFleb_val x y :
  okf x = true -> okf y = true -> SFleb x y = (val x <=? val y).
Proof.
  intros Hx Hy. unfold SFleb. rewrite (SFcompare_val _ _ Hx Hy).
  unfold Z.leb. destruct (val x ?= val y); reflexivity.
Qed.

Lemma SFltb_val x y :
  okf x = true -> okf y = true -> SFltb x y = (val x <? val y).
Proof.
  intros Hx Hy. unfold SFltb. rewrite (SFcompare_val _ _ Hx Hy).
  unfold Z.ltb. destruct (val x ?= val y); reflexivity.
Qed.

Lemma U_eq N : U N = Z.max (Zdigits2 N - 53) 1074.
Proof. unfold U. rewrite fexp_eq. unfold SC. lia. Qed.

Lemma RN_0 : RN 0 = 0.
Proof. reflexivity. Qed.

Lemma RN_fix N : N mod 2 ^ U N = 0 -> RN N = N.
Proof.
  intros H. unfold RN. rewrite rne_div_exact by exact H.
  pose proof (U_bounds N). pose proof (pow2_pos (U N) ltac:(lia)).
  pose proof (Z.div_mod N (2 ^ U N) ltac:(lia)). lia.
Qed.

Lemma RN_lower N j : U N <= j -> 2 ^ j <= N -> 2 ^ j <= RN N.
Proof.
  intros Hj HN. pose proof (U_bounds N) as HU.
  pose proof (pow2_pos (U N) ltac:(lia)) as Hp.
  unfold RN.
  assert (E : 2 ^ j = 2 ^ (j - U N) * 2 ^ U N).
  { rewrite <- pow2_split by lia. f_equal. lia. }
  pose proof (rne_div_mono (2 ^ j) N (2 ^ U N) Hp HN) as Hm.
  rewrite E in Hm at 1. rewrite rne_div_mul in Hm by lia.
  rewrite E. nia.
Qed.

Lemma RN_upper N j : 0 <= j -> U N <= j -> N <= 2 ^ j -> RN N <= 2 ^ j.
Proof.
  intros Hj0 Hj HN. pose proof (U_bounds N) as HU.
  pose proof (pow2_pos (U N) ltac:(lia)) as Hp.
  unfold RN.
  assert (E : 2 ^ j = 2 ^ (j - U N) * 2 ^ U N).
  { rewrite <- pow2_split by lia. f_equal. lia. }
  pose proof (rne_div_mono N (2 ^ j) (2 ^ U N) Hp HN) as Hm.
  rewrite E in Hm at 1. rewrite rne_div_mul in Hm by lia.
  rewrite E. nia.
Qed.

Lemma RN_nonneg N : 0 <= N -> 0 <= RN N.
Proof.
  intros HN. pose proof (U_bounds N) as HU.
  pose proof (pow2_pos (U N) ltac:(lia)) as Hp.
  unfold RN. pose proof (rne_div_bounds N (2 ^ U N) Hp).
  pose proof (Z.div_pos N (2 ^ U N) HN Hp). nia.
Qed.

Lemma RN_mono N1 N2 : 0 <= N1 <= N2 -> RN N1 <= RN N2.
Proof.
  intros [H1 H12].
  destruct (Z.eq_dec N1 0) as [->|Hn1].
  { rewrite RN_0. apply RN_nonneg. lia. }
  pose proof (Zdigits2_mono N1 N2 ltac:(lia)) as Hd.
  pose proof (U_eq N1) as E1. pose proof (U_eq N2) as E2.
  destruct (Z.eq_dec (U N1) (U N2)) as [Eu|Nu].
  - unfold RN. rewrite Eu.
    pose proof (pow2_pos (U N2) ltac:(pose proof (U_bounds N2); lia)) as Hp.
    pose proof (rne_div_mono N1 N2 (2 ^ U N2) Hp H12). nia.
  - pose proof (Zdigits2_bounds N1 ltac:(lia)) as B1.
    pose proof (Zdigits2_bounds N2 ltac:(lia)) as B2.
    assert (Hlow : 2 ^ (Zdigits2 N2 - 1) <= RN N2).
    { apply RN_lower; lia. }
    assert (Hup : RN N1 <= 2 ^ Z.max (Zdigits2 N1) (U N1)).
    { apply RN_upper; try lia.
      pose proof (pow2_mono (Zdigits2 N1) (Z.max (Zdigits2 N1) (U N1))
                    ltac:(pose proof (Zdigits2_nonneg N1); lia)). lia. }
    pose proof (pow2_mono (Z.max (Zdigits2 N1) (U N1)) (Zdigits2 N2 - 1) ltac:(lia)).
    lia.
Qed.

Lemma G_mono N1 N2 : 0 <= N1 <= N2 -> G N1 <= G N2.
Proof. intros H. unfold G. pose proof (RN_mono N1 N2 H). lia. Qed.

Lemma G_nonneg N : 0 <= N -> 0 <= G N.
Proof. intros H. unfold G. pose proof (RN_nonneg N H). pose proof TOP_pos. lia. Qed.

Lemma G_le_TOP N : G N <= TOP.
Proof. unfold G. lia. Qed.

Lemma G_0 : G 0 = 0.
Proof. unfold G. rewrite RN_0. pose proof TOP_pos. lia. Qed.

Lemma RN_TOP : RN TOP = TOP.
Proof.
  apply RN_fix. rewrite U_eq.
  replace (Zdigits2 TOP) with 3173.
  2:{ symmetry. unfold TOP. replace (2 ^ (PyFloat.emax + SC)) with (1 * 2 ^ (PyFloat.emax + SC)) by lia.
      rewrite Zdigits2_shift; unfold PyFloat.emax, SC; simpl Zdigits2; lia. }
  rewrite Z.max_l by lia. unfold TOP, PyFloat.emax, SC.
  replace (1024 + 2148) with (52 + (3173 - 53)) by lia.
  rewrite pow2_split by lia. apply Z.mod_mul. lia.
Qed.

Lemma G_TOP_le N : TOP <= N -> G N = TOP.
Proof.
  intros H. unfold G. pose proof TOP_pos.
  pose proof (RN_mono TOP N ltac:(lia)). rewrite RN_TOP in *. lia.
Qed.

(** a well-formed non-negative float is a fixed point of the rounding *)
Lemma G_val x : okf x = true -> 0 <= val x -> G (val x) = val x.
Proof.
  pose proof TOP_pos as HT.
  destruct x as [s|s| |s m e]; cbn [okf valid_binary val]; try discriminate; intros Hx Hv.
  - apply G_0.
  - destruct s; cbn [cond_Zopp] in *; [lia|]. apply G_TOP_le. lia.
  - pose proof (bounded_lt_TOP _ _ Hx) as Hb.
    destruct s; cbn [cond_Zopp] in *; [lia|].
    destruct (bounded_inv _ _ Hx) as (He & Hm & _ & Hfe).
    unfold G. rewrite RN_fix; [lia|].
    unfold U. rewrite Zdigits2_shift by (unfold SC; lia).
    change (Zdigits2 (Z.pos m)) with (Z.pos (digits2_pos m)).
    replace (Z.pos (digits2_pos m) + (e + SC) - SC) with (Z.pos (digits2_pos m) + e) by lia.
    rewrite Hfe. apply Z.mod_mul.
    pose proof (pow2_pos (e + SC) ltac:(unfold SC; lia)). lia.
Qed.

Lemma shaped_val s r :
  shaped s r -> okf r = true /\ val r = cond_Zopp s (mag r).
Proof.
  destruct r as [s'|s'| |s' m e]; cbn [shaped okf valid_binary val mag].
  - intros ->. split; [reflexivity|]. destruct s; reflexivity.
  - intros ->. split; reflexivity.
  - intros [].
  - intros [-> Hb]. split; [exact Hb|reflexivity].
Qed.

Lemma Gs_mono N1 N2 : N1 <= N2 -> Gs N1 <= Gs N2.
Proof.
  intros H. unfold Gs.
  destruct (Z.ltb_spec N1 0), (Z.ltb_spec N2 0); try lia.
  - pose proof (G_mono (- N2) (- N1) ltac:(lia)). lia.
  - pose proof (G_nonneg (- N1) ltac:(lia)). pose proof (G_nonneg N2 ltac:(lia)). lia.
  - apply G_mono. lia.
Qed.

Lemma Gs_nonneg N : 0 <= N -> Gs N = G N.
Proof. intros H. unfold Gs. destruct (Z.ltb_spec N 0); [lia|reflexivity]. Qed.

Lemma Gs_cond_Zopp s N : 0 < N -> cond_Zopp s (G N) = Gs (cond_Zopp s N).
Proof.
  intros H. unfold Gs. destruct s; cbn [cond_Zopp].
  - destruct (Z.ltb_spec (- N) 0); [|lia]. rewrite Z.opp_involutive. reflexivity.
  - destruct (Z.ltb_spec N 0); [lia|reflexivity].
Qed.

(** [float(n)] *)
Lemma round_int_spec n :
  okf (binary_normalize PyFloat.prec PyFloat.emax n 0 false) = true /\
  val (binary_normalize PyFloat.prec PyFloat.emax n 0 false) = Gs (n * 2 ^ SC).
Proof.
  pose proof (pow2_pos SC ltac:(unfold SC; lia)) as Hp.
  destruct n as [|p|p]; cbn [binary_normalize].
  - split; [reflexivity|]. cbn [val]. rewrite Z.mul_0_l. rewrite Gs_nonneg, G_0; lia.
  - destruct (br_spec false p 0 ltac:(unfold SC; lia)) as [Hs Hm].
    destruct (shaped_val _ _ Hs) as [Hok Hv]. split; [exact Hok|].
    rewrite Hv, Hm. rewrite Z.add_0_l. cbn [cond_Zopp].
    rewrite Gs_nonneg by lia. reflexivity.
  - destruct (br_spec true p 0 ltac:(unfold SC; lia)) as [Hs Hm].
    destruct (shaped_val _ _ Hs) as [Hok Hv]. split; [exact Hok|].
    rewrite Hv, Hm. rewrite Z.add_0_l.
    rewrite Gs_cond_Zopp by lia. f_equal; cbn [cond_Zopp]; lia.
Qed.

Lemma val_hv x : okf x = true -> PyFloat.is_finite x = true -> val x = hv x * 2 ^ 1074.
Proof.
  destruct x as [s|s| |s m e]; cbn [okf valid_binary PyFloat.is_finite val hv]; try discriminate;
    intros Hx _; [reflexivity|].
  destruct (bounded_inv _ _ Hx) as (He & _).
  replace (e + SC) with (e + 1074 + 1074) by (unfold SC; lia).
  rewrite (pow2_split (e + 1074)) by lia.
  destruct s; cbn [cond_Zopp]; lia.
Qed.

Lemma Zdigits2_mul_lower a b :
  0 < a -> 0 < b -> Zdigits2 a + Zdigits2 b - 1 <= Zdigits2 (a * b).
Proof.
  intros Ha Hb.
  pose proof (Zdigits2_bounds a Ha) as Ba. pose proof (Zdigits2_bounds b Hb) as Bb.
  assert (1 <= Zdigits2 a) by (destruct a; simpl in *; lia).
  assert (1 <= Zdigits2 b) by (destruct b; simpl in *; lia).
  pose proof (Zdigits2_bounds (a * b) ltac:(nia)) as Bab.
  destruct (Z_lt_le_dec (Zdigits2 (a * b)) (Zdigits2 a + Zdigits2 b - 1)) as [Hlt|]; [|lia].
  exfalso.
  assert (0 <= Zdigits2 (a * b)) by (apply Zdigits2_nonneg; nia).
  pose proof (pow2_mono (Zdigits2 (a * b)) (Zdigits2 a - 1 + (Zdigits2 b - 1)) ltac:(lia)) as Hm.
  rewrite pow2_split in Hm by lia.
  pose proof (pow2_pos (Zdigits2 a - 1) ltac:(lia)).
  pose proof (pow2_pos (Zdigits2 b - 1) ltac:(lia)).
  nia.
Qed.

Lemma mul_spec x y :
  okf x = true -> okf y = true -> PyFloat.is_finite x = true -> PyFloat.is_finite y = true ->
  okf (SFmul PyFloat.prec PyFloat.emax x y) = true /\
  val (SFmul PyFloat.prec PyFloat.emax x y) = Gs (hv x * hv y).
Proof.
  destruct x as [sx|sx| |sx mx ex], y as [sy|sy| |sy my ey];
    cbn [okf valid_binary PyFloat.is_finite]; try discriminate; intros Hx Hy _ _;
    cbn [SFmul hv val okf valid_binary];
    try (split; [reflexivity|]; rewrite ?Z.mul_0_l, ?Z.mul_0_r, Gs_nonneg, G_0; lia).
  destruct (bounded_inv _ _ Hx) as (Hex & Hmx & Hnx & _).
  destruct (bounded_inv _ _ Hy) as (Hey & Hmy & Hny & _).
  assert (Hpre : ex + ey <= fexp PyFloat.prec PyFloat.emax (Zdigits2 (Z.pos (mx * my)) + (ex + ey))).
  { rewrite fexp_eq. rewrite Pos2Z.inj_mul.
    destruct (Z_le_gt_dec (ex + ey) (-1074)) as [|Hgt]; [lia|].
    assert (2 ^ 52 <= Z.pos mx * Z.pos my).
    { destruct (Z.eq_dec ex (-1074)) as [Ex|Ex].
      - specialize (Hny ltac:(lia)). nia.
      - specialize (Hnx ltac:(lia)). nia. }
    pose proof (Zdigits2_mono (2 ^ 52) (Z.pos mx * Z.pos my) ltac:(lia)) as Hd.
    change (Zdigits2 (2 ^ 52)) with 53 in Hd. lia. }
  destruct (bra_spec (xorb sx sy) (Z.pos (mx * my)) (ex + ey)) as [Hs Hm];
    [lia | unfold SC; lia | exact Hpre |].
  destruct (shaped_val _ _ Hs) as [Hok Hv]. split; [exact Hok|].
  rewrite Hv, Hm.
  pose proof (pow2_pos (ex + ey + SC) ltac:(unfold SC; lia)).
  rewrite Gs_cond_Zopp by lia. f_equal.
  replace (ex + ey + SC) with ((ex + 1074) + (ey + 1074)) by (unfold SC; lia).
  rewrite pow2_split by lia. rewrite Pos2Z.inj_mul.
  destruct sx, sy; cbn [xorb cond_Zopp]; lia.
Qed.

Lemma shl_align_val mx ex ez :
  ez <= ex -> Z.pos (fst (shl_align mx ex ez)) = Z.pos mx * 2 ^ (ex - ez).
Proof.
  intros H. unfold shl_align.
  destruct (ez - ex) as [|p|p] eqn:E; try lia; cbn [fst].
  - replace (ex - ez) with 0 by lia. lia.
  - rewrite Pos_iter_xO. f_equal. f_equal. lia.
Qed.

Lemma add_spec x y :
  okf x = true -> okf y = true -> 0 <= val x -> 0 <= val y ->
  okf (SFadd PyFloat.prec PyFloat.emax x y) = true /\
  val (SFadd PyFloat.prec PyFloat.emax x y) = G (val x + val y).
Proof.
  pose proof TOP_pos as HT.
  intros Hx Hy Vx Vy.
  pose proof (G_val x Hx Vx) as Gx. pose proof (G_val y Hy Vy) as Gy.
  destruct x as [sx|sx| |sx mx ex], y as [sy|sy| |sy my ey];
    cbn [okf valid_binary] in Hx, Hy; try discriminate;
    try (pose proof (bounded_lt_TOP _ _ Hx)); try (pose proof (bounded_lt_TOP _ _ Hy));
    cbn [val] in *.
  - cbn [SFadd]. destruct sx, sy; cbn [okf valid_binary val]; rewrite Z.add_0_l, G_0; auto.
  - cbn [SFadd okf valid_binary val]. split; [reflexivity|]. rewrite Z.add_0_l. lia.
  - cbn [SFadd okf valid_binary val]. split; [exact Hy|]. rewrite Z.add_0_l. lia.
  - cbn [SFadd okf valid_binary val]. split; [reflexivity|]. rewrite Z.add_0_r. lia.
  - destruct sx, sy; cbn [cond_Zopp] in *; try lia.
    cbn [SFadd okf valid_binary val cond_Zopp]. split; [reflexivity|].
    symmetry. apply G_TOP_le. lia.
  - destruct sx; cbn [cond_Zopp] in *; try lia.
    cbn [SFadd okf valid_binary val cond_Zopp]. split; [reflexivity|].
    symmetry. apply G_TOP_le. lia.
  - cbn [SFadd okf valid_binary val]. split; [exact Hx|]. rewrite Z.add_0_r. lia.
  - destruct sy; cbn [cond_Zopp] in *; try lia.
    cbn [SFadd okf valid_binary val cond_Zopp]. split; [reflexivity|].
    symmetry. apply G_TOP_le. lia.
  - destruct sx, sy; cbn [cond_Zopp] in *; try lia.
    cbn [SFadd cond_Zopp].
    destruct (bounded_inv _ _ Hx) as (Hex & _).
    destruct (bounded_inv _ _ Hy) as (Hey & _).
    set (ez := Z.min ex ey).
    assert (Hez : -1074 <= ez) by (subst ez; lia).
    pose proof (shl_align_val mx ex ez ltac:(subst ez; lia)) as Ax.
    pose proof (shl_align_val my ey ez ltac:(subst ez; lia)) as Ay.
    change (Z.pos (fst (shl_align mx ex ez)) + Z.pos (fst (shl_align my ey ez)))
      with (Z.pos (fst (shl_align mx ex ez) + fst (shl_align my ey ez))).
    cbn [binary_normalize].
    destruct (br_spec false (fst (shl_align mx ex ez) + fst (shl_align my ey ez)) ez
                ltac:(unfold SC; lia)) as [Hs Hm].
    destruct (shaped_val _ _ Hs) as [Hok Hv]. split; [exact Hok|].
    rewrite Hv, Hm. cbn [cond_Zopp]. f_equal.
    rewrite Pos2Z.inj_add, Ax, Ay.
    replace (ex + SC) with ((ex - ez) + (ez + SC)) by lia.
    replace (ey + SC) with ((ey - ez) + (ez + SC)) by lia.
    rewrite (pow2_split (ex - ez)) by (subst ez; unfold SC; lia).
    rewrite (pow2_split (ey - ez)) by (subst ez; unfold SC; lia).
    lia.
Qed.

End Binary64.

(** * Facts on the conversions and operations of the calculator *)

Module FloatFacts.
Import Binary64.

(** The least integer magnitude that [float(n)] cannot hold. *)
Definition LIMITE : Z := 2 ^ 1024 - 2 ^ 970.

(** The value of the largest finite binary64. *)
Definition MAXV : Z := (2 ^ 53 - 1) * 2 ^ (971 + SC).

Lemma RN_limite : RN (LIMITE * 2 ^ SC) = TOP.
Proof. vm_compute. reflexivity. Qed.

Lemma RN_abaixo_limite : RN ((LIMITE - 1) * 2 ^ SC) = MAXV.
Proof. vm_compute. reflexivity. Qed.

Lemma MAXV_lt_TOP : MAXV < TOP.
Proof. vm_compute. reflexivity. Qed.

Lemma RN_MAXV_mais_um : RN (MAXV + 2 ^ SC) = MAXV.
Proof. vm_compute. reflexivity. Qed.

Lemma okf_cases x :
  okf x = true ->
  (PyFloat.is_finite x = true /\ - MAXV <= val x <= MAXV) \/
  (exists s, x = S754_infinity s).
Proof.
  destruct x as [s|s| |s m0 e]; cbn [okf valid_binary PyFloat.is_finite val];
    try discriminate; intros Hx.
  - left. split; [reflexivity|]. vm_compute. split; discriminate.
  - right. eauto.
  - left. split; [reflexivity|].
    destruct (bounded_inv _ _ Hx) as (He & Hm & _).
    assert (Z.pos m0 * 2 ^ (e + SC) <= MAXV).
    { unfold MAXV. pose proof (pow2_mono (e + SC) (971 + SC) ltac:(unfold SC; lia)).
      pose proof (pow2_pos (e + SC) ltac:(unfold SC; lia)).
      change (2 ^ 53) with 9007199254740992 in *. nia. }
    destruct s; cbn [cond_Zopp]; lia.
Qed.

Lemma G_lt_TOP_finite x :
  okf x = true -> - TOP < val x < TOP -> PyFloat.is_finite x = true.
Proof.
  intros Hx Hv. destruct (okf_cases x Hx) as [[Hf _]|[s ->]]; [exact Hf|].
  cbn [val] in Hv. destruct s; cbn [cond_Zopp] in Hv; lia.
Qed.

Lemma Gs_bound N : - TOP <= Gs N <= TOP.
Proof.
  unfold Gs. pose proof TOP_pos.
  destruct (Z.ltb_spec N 0).
  - pose proof (G_le_TOP (- N)). pose proof (G_nonneg (- N) ltac:(lia)). lia.
  - pose proof (G_le_TOP N). pose proof (G_nonneg N ltac:(lia)). lia.
Qed.

Lemma G_abaixo N : 0 <= N <= (LIMITE - 1) * 2 ^ SC -> G N <= MAXV.
Proof.
  intros H. unfold G. pose proof (RN_mono N _ H) as Hm.
  rewrite RN_abaixo_limite in Hm. lia.
Qed.

Lemma G_acima N : LIMITE * 2 ^ SC <= N -> G N = TOP.
Proof.
  intros H. unfold G.
  assert (0 <= LIMITE * 2 ^ SC) by (vm_compute; discriminate).
  pose proof (RN_mono _ N (conj H0 H)) as Hm.
  rewrite RN_limite in Hm. lia.
Qed.

(** [float(n)] *)
Lemma round_int_okf n : okf (PyFloat.round_int n) = true.
Proof. apply round_int_spec. Qed.

Lemma round_int_val n : val (PyFloat.round_int n) = Gs (n * 2 ^ SC).
Proof. apply round_int_spec. Qed.

Lemma of_int_Some n x :
  PyFloat.of_int n = Some x ->
  x = PyFloat.round_int n /\ okf x = true /\ PyFloat.is_finite x = true /\
  val x = Gs (n * 2 ^ SC).
Proof.
  unfold PyFloat.of_int. intros H.
  pose proof (round_int_okf n) as Hok. pose proof (round_int_val n) as Hv.
  destruct (PyFloat.round_int n) as [s|s| |s m0 e] eqn:E; try discriminate;
    inversion H; subst x; repeat split; auto.
Qed.

Lemma of_int_None_iff n : PyFloat.of_int n = None <-> LIMITE <= Z.abs n.
Proof.
  pose proof (pow2_pos SC ltac:(unfold SC; lia)) as Hp.
  pose proof MAXV_lt_TOP as HM. pose proof TOP_pos as HT.
  pose proof (round_int_okf n) as Hok. pose proof (round_int_val n) as Hv.
  assert (HL : 0 < LIMITE) by (vm_compute; reflexivity).
  unfold PyFloat.of_int.
  destruct (Z_lt_le_dec (Z.abs n) LIMITE) as [Hlt|Hge].
  - split; [|lia]. intros H. exfalso.
    assert (Hb : - MAXV <= Gs (n * 2 ^ SC) <= MAXV).
    { unfold Gs. destruct (Z.ltb_spec (n * 2 ^ SC) 0).
      - pose proof (G_abaixo (- (n * 2 ^ SC)) ltac:(nia)).
        pose proof (G_nonneg (- (n * 2 ^ SC)) ltac:(lia)). lia.
      - pose proof (G_abaixo (n * 2 ^ SC) ltac:(nia)).
        pose proof (G_nonneg (n * 2 ^ SC) ltac:(lia)). lia. }
    rewrite <- Hv in Hb.
    destruct (PyFloat.round_int n) as [s|s| |s m0 e]; try discriminate H.
    cbn [val] in Hb. destruct s; cbn [cond_Zopp] in Hb; lia.
  - split; [lia|]. intros _.
    assert (Hb : Z.abs (Gs (n * 2 ^ SC)) = TOP).
    { unfold Gs. destruct (Z.ltb_spec (n * 2 ^ SC) 0).
      - rewrite (G_acima (- (n * 2 ^ SC))) by nia. lia.
      - rewrite (G_acima (n * 2 ^ SC)) by nia. lia. }
    rewrite <- Hv in Hb.
    destruct (okf_cases _ Hok) as [[_ Hf]|[s Hs]]; [lia|].
    rewrite Hs. reflexivity.
Qed.

Lemma of_int_Some_iff n : (exists x, PyFloat.of_int n = Some x) <-> Z.abs n < LIMITE.
Proof.
  pose proof (of_int_None_iff n) as H.
  destruct (PyFloat.of_int n) as [x|]; split; intros H1.
  - destruct (Z_lt_le_dec (Z.abs n) LIMITE); [assumption|].
    apply H in l. discriminate.
  - eauto.
  - destruct H1 as [x Hx]. discriminate.
  - assert (LIMITE <= Z.abs n) by (apply H; reflexivity). lia.
Qed.

(** Integers of at most 53 bits convert exactly. *)
Lemma G_exato n : 0 <= n <= 2 ^ 53 -> G (n * 2 ^ SC) = n * 2 ^ SC.
Proof.
  intros Hn. pose proof (pow2_pos SC ltac:(unfold SC; lia)) as Hp.
  destruct (Z.eq_dec n 0) as [->|Hn0]; [rewrite Z.mul_0_l; apply G_0|].
  assert (Hlt : n * 2 ^ SC < TOP).
  { unfold TOP, PyFloat.emax. rewrite (pow2_split 1024) by (unfold SC; lia).
    assert (2 ^ 53 < 2 ^ 1024) by (vm_compute; reflexivity). nia. }
  unfold G. rewrite RN_fix; [lia|].
  rewrite U_eq, Zdigits2_shift by (unfold SC; lia).
  assert (Hd : Zdigits2 n <= 54).
  { pose proof (Zdigits2_mono n (2 ^ 53) ltac:(lia)) as Hm.
    change (Zdigits2 (2 ^ 53)) with 54 in Hm. exact Hm. }
  pose proof (Zdigits2_nonneg n ltac:(lia)) as Hd0.
  destruct (Z.eq_dec (Zdigits2 n) 54) as [E54|N54].
  - pose proof (Zdigits2_bounds n ltac:(lia)) as Hb. rewrite E54 in Hb.
    change (2 ^ (54 - 1)) with (2 ^ 53) in Hb.
    assert (n = 2 ^ 53) by lia. subst n.
    rewrite E54. replace (Z.max (54 + SC - 53) 1074) with (1 + SC) by (unfold SC; lia).
    rewrite (pow2_split 1) by (unfold SC; lia).
    change (2 ^ 53) with (2 ^ 52 * 2 ^ 1).
    replace (2 ^ 52 * 2 ^ 1 * 2 ^ SC) with (2 ^ 52 * (2 ^ 1 * 2 ^ SC)) by lia.
    apply Z.mod_mul. lia.
  - set (u := Z.max (Zdigits2 n + SC - 53) 1074).
    assert (Hu : 0 <= u <= SC) by (unfold u, SC in *; lia).
    replace SC with ((SC - u) + u) at 1 by lia.
    rewrite (pow2_split (SC - u)) by lia.
    rewrite Z.mul_assoc. apply Z.mod_mul.
    pose proof (pow2_pos u ltac:(lia)). lia.
Qed.

Lemma Gs_exato n : - 2 ^ 53 <= n <= 2 ^ 53 -> Gs (n * 2 ^ SC) = n * 2 ^ SC.
Proof.
  intros Hn. pose proof (pow2_pos SC ltac:(unfold SC; lia)) as Hp.
  unfold Gs. destruct (Z.ltb_spec (n * 2 ^ SC) 0).
  - replace (- (n * 2 ^ SC)) with (- n * 2 ^ SC) by lia.
    rewrite G_exato by nia. lia.
  - apply G_exato. nia.
Qed.

End FloatFacts.

Module CalcFacts.
Import Binary64 FloatFacts.

Lemma Ok_inj {A : Type} (a b : A) : Ok a = Ok b -> a = b.
Proof. intros H. congruence. Qed.

Lemma lit_0 : PyFloat.lit 0 = S754_zero false.
Proof. reflexivity. Qed.

Lemma wf_okf x : PyFloat.wf x -> PyFloat.is_nan x = false -> okf x = true.
Proof. unfold PyFloat.wf. destruct x; cbn; intros H1 H2; try exact H1; discriminate H2. Qed.

Lemma okf_wf x : okf x = true -> PyFloat.wf x.
Proof. unfold PyFloat.wf. destruct x; cbn [okf]; intros H; try exact H; discriminate H. Qed.

Lemma nonneg_okf x :
  PyFloat.wf x -> PyFloat.nonneg x = true -> okf x = true /\ 0 <= val x.
Proof.
  intros Hw Hn. unfold PyFloat.nonneg, PyFloat.leb in Hn. rewrite lit_0 in Hn.
  assert (Hok : okf x = true).
  { apply wf_okf; [exact Hw|]. destruct x; try reflexivity. discriminate Hn. }
  split; [exact Hok|].
  rewrite (SFleb_val (S754_zero false) x eq_refl Hok) in Hn.
  cbn [val] in Hn. apply Z.leb_le in Hn. exact Hn.
Qed.

Lemma okf_nonneg x : okf x = true -> 0 <= val x -> PyFloat.nonneg x = true.
Proof.
  intros Hok Hv. unfold PyFloat.nonneg, PyFloat.leb. rewrite lit_0.
  rewrite (SFleb_val (S754_zero false) x eq_refl Hok).
  cbn [val]. apply Z.leb_le. exact Hv.
Qed.

Lemma leb_of_val x y :
  okf x = true -> okf y = true -> val x <= val y -> PyFloat.leb x y = true.
Proof.
  intros Hx Hy H. unfold PyFloat.leb. rewrite (SFleb_val x y Hx Hy).
  apply Z.leb_le. exact H.
Qed.

Lemma pow_SC : 2 ^ SC = 2 ^ 1074 * 2 ^ 1074.
Proof. unfold SC. rewrite <- pow2_split by lia. reflexivity. Qed.

Lemma hv_sign x :
  okf x = true -> PyFloat.is_finite x = true -> (0 <= val x <-> 0 <= hv x).
Proof.
  intros Hx Hf. rewrite (val_hv x Hx Hf).
  pose proof (pow2_pos 1074 ltac:(lia)). split; nia.
Qed.

Lemma hv_le x y :
  okf x = true -> PyFloat.is_finite x = true ->
  okf y = true -> PyFloat.is_finite y = true ->
  val x <= val y -> hv x <= hv y.
Proof.
  intros Hx Fx Hy Fy. rewrite (val_hv x Hx Fx), (val_hv y Hy Fy).
  pose proof (pow2_pos 1074 ltac:(lia)). nia.
Qed.

(** product of two non-negative finite floats *)
Lemma mul_nn x y :
  okf x = true -> okf y = true ->
  PyFloat.is_finite x = true -> PyFloat.is_finite y = true ->
  0 <= val x -> 0 <= val y ->
  okf (PyFloat.mul x y) = true /\
  val (PyFloat.mul x y) = G (hv x * hv y) /\
  0 <= val (PyFloat.mul x y).
Proof.
  intros Hx Hy Fx Fy Vx Vy.
  destruct (mul_spec x y Hx Hy Fx Fy) as [Hok Hv].
  apply (hv_sign x Hx Fx) in Vx. apply (hv_sign y Hy Fy) in Vy.
  unfold PyFloat.mul. rewrite Hv. rewrite Gs_nonneg by nia.
  repeat split; auto. apply G_nonneg. nia.
Qed.

Lemma add_nn x y :
  okf x = true -> okf y = true -> 0 <= val x -> 0 <= val y ->
  okf (PyFloat.add x y) = true /\
  val (PyFloat.add x y) = G (val x + val y) /\
  0 <= val (PyFloat.add x y).
Proof.
  intros Hx Hy Vx Vy. destruct (add_spec x y Hx Hy Vx Vy) as [Hok Hv].
  unfold PyFloat.add. rewrite Hv. repeat split; auto. apply G_nonneg. lia.
Qed.

Lemma add_zero_r x s :
  okf x = true ->
  okf (PyFloat.add x (S754_zero s)) = true /\
  val (PyFloat.add x (S754_zero s)) = val x.
Proof.
  destruct x as [sx|sx| |sx mx ex]; cbn [okf]; intros Hx; try discriminate Hx;
    unfold PyFloat.add; cbn [SFadd].
  - destruct sx, s; split; reflexivity.
  - split; [exact Hx|reflexivity].
  - split; [exact Hx|reflexivity].
Qed.

Lemma mul_zero_l s y :
  PyFloat.is_finite y = true -> exists s', PyFloat.mul (S754_zero s) y = S754_zero s'.
Proof.
  destruct y as [sy|sy| |sy my ey]; cbn [PyFloat.is_finite]; intros H;
    try discriminate H; unfold PyFloat.mul; cbn [SFmul]; eauto.
Qed.

Lemma of_int_nn n x :
  0 <= n -> PyFloat.of_int n = Some x ->
  okf x = true /\ PyFloat.is_finite x = true /\ val x = G (n * 2 ^ SC) /\ 0 <= val x.
Proof.
  intros Hn H. destruct (of_int_Some n x H) as (_ & Hok & Hf & Hv).
  pose proof (pow2_pos SC ltac:(unfold SC; lia)).
  rewrite Gs_nonneg in Hv by nia.
  repeat split; auto. rewrite Hv. apply G_nonneg. nia.
Qed.

Lemma int_mul_float_Ok n x t :
  int_mul_float n x = Ok t ->
  exists fn, PyFloat.of_int n = Some fn /\ t = PyFloat.mul fn x.
Proof.
  unfold int_mul_float. destruct (PyFloat.of_int n) as [fn|]; intros H.
  - inversion H. eauto.
  - discriminate H.
Qed.

Lemma int_mul_float_nn n x t :
  0 <= n -> okf x = true -> PyFloat.is_finite x = true -> 0 <= val x ->
  int_mul_float n x = Ok t ->
  okf t = true /\ 0 <= val t.
Proof.
  intros Hn Hx Fx Vx H.
  destruct (int_mul_float_Ok _ _ _ H) as (fn & Hfn & ->).
  destruct (of_int_nn n fn Hn Hfn) as (Hok & Hf & _ & Hv).
  destruct (mul_nn fn x Hok Hx Hf Fx Hv Vx) as (H1 & _ & H2). auto.
Qed.

Lemma custo_funcionarios_Ok n rp1 rp2 c :
  calcular_custo_funcionarios n rp1 rp2 = Ok c ->
  exists a b, PyFloat.of_int (Z.min n 100) = Some a /\
              PyFloat.of_int (Z.max 0 (n - 100)) = Some b /\
              c = PyFloat.add (PyFloat.mul a rp1) (PyFloat.mul b rp2).
Proof.
  unfold calcular_custo_funcionarios, res_bind, int_mul_float.
  destruct (PyFloat.of_int (Z.min n 100)) as [a|]; [|intros H; discriminate H].
  destruct (PyFloat.of_int (Z.max 0 (n - 100))) as [b|]; [|intros H; discriminate H].
  intros H. inversion H. eauto.
Qed.

Lemma custo_funcionarios_nn n rp1 rp2 c :
  0 <= n ->
  okf rp1 = true -> PyFloat.is_finite rp1 = true -> 0 <= val rp1 ->
  okf rp2 = true -> PyFloat.is_finite rp2 = true -> 0 <= val rp2 ->
  calcular_custo_funcionarios n rp1 rp2 = Ok c ->
  okf c = true /\ 0 <= val c.
Proof.
  intros Hn H1 F1 V1 H2 F2 V2 H.
  destruct (custo_funcionarios_Ok _ _ _ _ H) as (a & b & Ha & Hb & ->).
  destruct (of_int_nn (Z.min n 100) a ltac:(lia) Ha) as (Hoka & Hfa & _ & Hva).
  destruct (of_int_nn (Z.max 0 (n - 100)) b ltac:(lia) Hb) as (Hokb & Hfb & _ & Hvb).
  destruct (mul_nn a rp1 Hoka H1 Hfa F1 Hva V1) as (M1 & _ & N1).
  destruct (mul_nn b rp2 Hokb H2 Hfb F2 Hvb V2) as (M2 & _ & N2).
  destruct (add_nn _ _ M1 M2 N1 N2) as (A1 & _ & A2). auto.
Qed.

(** [1 + m] for a finite non-negative margin: finite, and at least 1 *)
Lemma um_mais_m_spec mg um :
  okf mg = true -> PyFloat.is_finite mg = true -> 0 <= val mg ->
  int_add_float 1 mg = Ok um ->
  okf um = true /\ PyFloat.is_finite um = true /\ 2 ^ SC <= val um.
Proof.
  intros Hm Fm Vm H. unfold int_add_float in H.
  change (PyFloat.of_int 1) with (Some (PyFloat.round_int 1)) in H.
  apply Ok_inj in H. subst um.
  pose proof (round_int_okf 1) as Hok1. pose proof (round_int_val 1) as Hv1.
  rewrite Gs_exato in Hv1 by (change (2 ^ 53) with 9007199254740992; lia).
  rewrite Z.mul_1_l in Hv1.
  pose proof (pow2_pos SC ltac:(unfold SC; lia)) as Hp.
  assert (Hnn1 : 0 <= val (PyFloat.round_int 1)) by lia.
  destruct (add_nn _ _ Hok1 Hm Hnn1 Vm) as (Hok & Hv & Hnn).
  rewrite Hv1 in Hv.
  destruct (okf_cases mg Hm) as [[_ Hb]|[s Hs]];
    [|rewrite Hs in Fm; discriminate Fm].
  assert (Hlow : 2 ^ SC <= val (PyFloat.add (PyFloat.round_int 1) mg)).
  { rewrite Hv. pose proof (G_mono (2 ^ SC) (2 ^ SC + val mg) ltac:(lia)) as Hm1.
    pose proof (G_exato 1 ltac:(change (2 ^ 53) with 9007199254740992; lia)) as He.
    rewrite Z.mul_1_l in He. lia. }
  assert (Hup : val (PyFloat.add (PyFloat.round_int 1) mg) <= MAXV).
  { rewrite Hv. pose proof (RN_mono (2 ^ SC + val mg) (MAXV + 2 ^ SC) ltac:(lia)) as Hm1.
    rewrite RN_MAXV_mais_um in Hm1. unfold G. lia. }
  pose proof MAXV_lt_TOP.
  repeat split; auto. apply G_lt_TOP_finite; [exact Hok|lia].
Qed.

End CalcFacts.

Import Binary64 FloatFacts CalcFacts.

(** * The pricing calculator *)

Lemma calcular_precificacao_Ok d r :
  calcular_precificacao d = Ok r ->
  calcular_custo_funcionarios (N_emp d) (Rp1 d) (Rp2 d) = Ok (C_emp r) /\
  calcular_custo_postos (N_loc d) (R_loc d) = Ok (C_loc r) /\
  calcular_custo_audiencias_extras (N_aud d) (Aud_incl d) (R_aud d) = Ok (C_aud r) /\
  Custo_bruto r =
    PyFloat.add (PyFloat.add (PyFloat.add (F_base d) (C_emp r)) (C_loc r)) (C_aud r) /\
  int_add_float 1 (m d) = Ok (PyFloat.add (PyFloat.lit 1) (m d)) /\
  Preco r = PyFloat.mul (Custo_bruto r) (PyFloat.add (PyFloat.lit 1) (m d)).
Proof.
  unfold calcular_precificacao, res_bind.
  destruct (calcular_custo_funcionarios (N_emp d) (Rp1 d) (Rp2 d)) as [c1|e];
    [|intros H; discriminate H].
  destruct (calcular_custo_postos (N_loc d) (R_loc d)) as [c2|e];
    [|intros H; discriminate H].
  destruct (calcular_custo_audiencias_extras (N_aud d) (Aud_incl d) (R_aud d)) as [c3|e];
    [|intros H; discriminate H].
  change (int_add_float 1 (m d)) with (Ok (A := float) (PyFloat.add (PyFloat.lit 1) (m d))).
  intros H. apply Ok_inj in H. subst r. cbn [C_emp C_loc C_aud Custo_bruto Preco].
  repeat split; reflexivity.
Qed.

(** C1 (confirmed).  For every input record whose fields are non-negative,
    with total hearings at least the included ones and a margin of at most
    10, the result of the calculator satisfies
    [Custo_bruto = F_base + C_emp + C_loc + C_aud] and
    [Preco = Custo_bruto * (1 + m)], in the floating-point arithmetic of
    the code. *)
Theorem calcular_precificacao_equacoes (d : DadosEntrada) (r : ResultadoCalculo) :
  dados_nao_negativos d ->
  Aud_incl d <= N_aud d ->
  PyFloat.leb (m d) (PyFloat.lit 10) = true ->
  calcular_precificacao d = Ok r ->
  Custo_bruto r =
    PyFloat.add (PyFloat.add (PyFloat.add (F_base d) (C_emp r)) (C_loc r)) (C_aud r) /\
  Preco r = PyFloat.mul (Custo_bruto r) (PyFloat.add (PyFloat.lit 1) (m d)).
Proof.
  intros _ _ _ H.
  destruct (calcular_precificacao_Ok d r H) as (_ & _ & _ & Hb & _ & Hp).
  split; assumption.
Qed.

(** C9 (confirmed).  For base fee 1000, 50 employees at rates 25 and 30,
    5 locations at 200, 3 included and 8 total hearings at 150 and margin
    0.20 the calculator returns employee cost 1250, location cost 1000,
    extra-hearing cost 750, gross cost 4000 and price 4800. *)
Theorem exemplo_precificacao :
  Decimal.py_float "0.20" = Some (m dados_exemplo) /\
  calcular_precificacao dados_exemplo = Ok resultado_exemplo.
Proof. split; vm_compute; reflexivity. Qed.

Lemma dados_exemplo_nao_negativos : dados_nao_negativos dados_exemplo.
Proof. unfold dados_nao_negativos. cbn [N_emp N_loc Aud_incl N_aud dados_exemplo].
  repeat split; try lia; vm_compute; reflexivity. Qed.

Lemma calcular_precificacao_equacoes_witness :
  Custo_bruto resultado_exemplo =
    PyFloat.add (PyFloat.add (PyFloat.add (F_base dados_exemplo) (C_emp resultado_exemplo))
                   (C_loc resultado_exemplo)) (C_aud resultado_exemplo) /\
  Preco resultado_exemplo =
    PyFloat.mul (Custo_bruto resultado_exemplo) (PyFloat.add (PyFloat.lit 1) (m dados_exemplo)).
Proof.
  apply (calcular_precificacao_equacoes dados_exemplo resultado_exemplo).
  - unfold dados_nao_negativos. cbn [N_emp N_loc Aud_incl N_aud dados_exemplo].
    repeat split; try lia; vm_compute; reflexivity.
  - cbn [N_aud Aud_incl dados_exemplo]. lia.
  - vm_compute. reflexivity.
  - vm_compute. reflexivity.
Defined.

(** C2 (confirmed).  The employee cost is [min(n, 100) * Rp1 +
    max(0, n - 100) * Rp2]: the first hundred employees at tier 1 and the
    remainder at tier 2; for 150 employees at rates 25 and 30 it is 4000. *)
Theorem custo_funcionarios_por_faixas :
  (forall (n_emp : Z) (rp1 rp2 : float),
     calcular_custo_funcionarios n_emp rp1 rp2 = custo_por_faixas n_emp rp1 rp2) /\
  calcular_custo_funcionarios 150 (PyFloat.lit 25) (PyFloat.lit 30) = Ok (PyFloat.lit 4000).
Proof.
  split.
  - intros n rp1 rp2. unfold calcular_custo_funcionarios, custo_por_faixas.
    destruct (Z.leb_spec n 100) as [H|H].
    + rewrite Z.min_l by lia. rewrite Z.max_l by lia. reflexivity.
    + rewrite Z.min_r by lia. rewrite Z.max_r by lia. reflexivity.
  - vm_compute. reflexivity.
Qed.

(** C6 (corrected).  The extra-hearing cost is zero when the total does not
    exceed the included hearings and the rate is finite, and it is
    [(N_aud - Aud_incl) * R_aud] when the total exceeds them. *)
Theorem custo_audiencias_extras_casos (n_aud aud_incl : Z) (r_aud : float) :
  (n_aud <= aud_incl -> PyFloat.is_finite r_aud = true ->
   exists z, calcular_custo_audiencias_extras n_aud aud_incl r_aud = Ok z /\
             PyFloat.eqb z (PyFloat.lit 0) = true) /\
  (aud_incl < n_aud ->
   calcular_custo_audiencias_extras n_aud aud_incl r_aud =
   int_mul_float (n_aud - aud_incl) r_aud).
Proof.
  unfold calcular_custo_audiencias_extras. split.
  - intros H Hf. rewrite Z.max_l by lia.
    destruct r_aud as [s|s| |s m0 e]; try discriminate Hf.
    + exists (S754_zero (xorb false s)). split; reflexivity.
    + exists (S754_zero (xorb false s)). split; reflexivity.
  - intros H. rewrite Z.max_r by lia. reflexivity.
Qed.

Lemma custo_audiencias_extras_inf :
  calcular_custo_audiencias_extras 0 0 PyFloat.inf = Ok PyFloat.nan /\
  PyFloat.eqb PyFloat.nan (PyFloat.lit 0) = false.
Proof. split; reflexivity. Qed.

(** final price against gross cost *)
Lemma preco_ge_custo custo um :
  okf custo = true -> 0 <= val custo ->
  okf um = true -> PyFloat.is_finite um = true -> 2 ^ SC <= val um ->
  okf (PyFloat.mul custo um) = true /\
  val custo <= val (PyFloat.mul custo um).
Proof.
  intros Hc Vc Hu Fu Vu.
  pose proof (pow2_pos SC ltac:(unfold SC; lia)) as Hp.
  pose proof (pow2_pos 1074 ltac:(lia)) as Hq.
  destruct (okf_cases custo Hc) as [[Fc _]|[s Hs]].
  - destruct (mul_nn custo um Hc Hu Fc Fu Vc ltac:(lia)) as (Hok & Hv & _).
    split; [exact Hok|]. rewrite Hv.
    pose proof (val_hv custo Hc Fc) as Ec. pose proof (val_hv um Hu Fu) as Eu.
    rewrite pow_SC in Vu.
    assert (Hhu : 2 ^ 1074 <= hv um) by nia.
    assert (Hhc : 0 <= hv custo) by nia.
    pose proof (G_mono (val custo) (hv custo * hv um) ltac:(nia)) as Hm.
    rewrite (G_val custo Hc Vc) in Hm. exact Hm.
  - subst custo. cbn [val] in Vc. pose proof TOP_pos.
    destruct s; cbn [cond_Zopp] in Vc; [lia|].
    destruct um as [su|su| |su mu eu]; try discriminate Fu.
    + cbn [val] in Vu. lia.
    + cbn [val] in Vu.
      destruct su; cbn [cond_Zopp] in Vu.
      * pose proof (pow2_pos (eu + SC)) as Hpe.
        cbn [okf valid_binary] in Hu. pose proof (bounded_lt_TOP _ _ Hu). lia.
      * unfold PyFloat.mul. cbn [SFmul xorb okf valid_binary val cond_Zopp].
        split; [reflexivity|lia].
Qed.

(** C10 (corrected).  For every input record of binary64 values whose
    fields are non-negative and whose four rates and margin are finite,
    every field of the calculator's result is non-negative and the price is
    at least the gross cost. *)
Theorem resultado_nao_negativo (d : DadosEntrada) (r : ResultadoCalculo) :
  dados_wf d ->
  dados_nao_negativos d ->
  tarifas_finitas d ->
  calcular_precificacao d = Ok r ->
  PyFloat.nonneg (C_emp r) = true /\
  PyFloat.nonneg (C_loc r) = true /\
  PyFloat.nonneg (C_aud r) = true /\
  PyFloat.nonneg (Custo_bruto r) = true /\
  PyFloat.nonneg (Preco r) = true /\
  PyFloat.leb (Custo_bruto r) (Preco r) = true.
Proof.
  intros (Wf & W1 & W2 & Wl & Wa & Wm)
         (Nf & Ne & N1 & N2 & Nl & Nrl & Ni & Na & Nra & Nm)
         (F1 & F2 & Fl & Fa & Fm) H.
  destruct (calcular_precificacao_Ok d r H) as (He & Hl & Ha & Hb & Hu & Hp).
  destruct (nonneg_okf _ Wf Nf) as [Of Vf].
  destruct (nonneg_okf _ W1 N1) as [O1 V1].
  destruct (nonneg_okf _ W2 N2) as [O2 V2].
  destruct (nonneg_okf _ Wl Nrl) as [Ol Vl].
  destruct (nonneg_okf _ Wa Nra) as [Oa Va].
  destruct (nonneg_okf _ Wm Nm) as [Om Vm].
  destruct (custo_funcionarios_nn _ _ _ _ Ne O1 F1 V1 O2 F2 V2 He) as [Oe Ve].
  destruct (int_mul_float_nn _ _ _ Nl Ol Fl Vl Hl) as [Oc Vc].
  assert (Hmax : 0 <= Z.max 0 (N_aud d - Aud_incl d)) by lia.
  destruct (int_mul_float_nn _ _ _ Hmax Oa Fa Va Ha) as [Ox Vx].
  destruct (add_nn _ _ Of Oe Vf Ve) as (S1 & _ & T1).
  destruct (add_nn _ _ S1 Oc T1 Vc) as (S2 & _ & T2).
  destruct (add_nn _ _ S2 Ox T2 Vx) as (S3 & _ & T3).
  rewrite <- Hb in S3, T3.
  destruct (um_mais_m_spec _ _ Om Fm Vm Hu) as (Ou & Fu & Vu).
  destruct (preco_ge_custo _ _ S3 T3 Ou Fu Vu) as [Op Vp].
  rewrite <- Hp in Op, Vp.
  repeat split.
  - apply okf_nonneg; assumption.
  - apply okf_nonneg; assumption.
  - apply okf_nonneg; assumption.
  - apply okf_nonneg; assumption.
  - apply okf_nonneg; [assumption|lia].
  - apply leb_of_val; assumption.
Qed.

Lemma resultado_nao_negativo_witness :
  PyFloat.nonneg (C_emp resultado_exemplo) = true /\
  PyFloat.nonneg (C_loc resultado_exemplo) = true /\
  PyFloat.nonneg (C_aud resultado_exemplo) = true /\
  PyFloat.nonneg (Custo_bruto resultado_exemplo) = true /\
  PyFloat.nonneg (Preco resultado_exemplo) = true /\
  PyFloat.leb (Custo_bruto resultado_exemplo) (Preco resultado_exemplo) = true.
Proof.
  apply (resultado_nao_negativo dados_exemplo resultado_exemplo).
  - unfold dados_wf. repeat split; vm_compute; reflexivity.
  - unfold dados_nao_negativos. cbn [N_emp N_loc Aud_incl N_aud dados_exemplo].
    repeat split; try lia; vm_compute; reflexivity.
  - unfold tarifas_finitas. repeat split; vm_compute; reflexivity.
  - vm_compute. reflexivity.
Defined.

Lemma resultado_nan_com_tarifa_infinita :
  dados_wf dados_tarifa_infinita /\
  dados_nao_negativos dados_tarifa_infinita /\
  exists r, calcular_precificacao dados_tarifa_infinita = Ok r /\
            C_emp r = PyFloat.nan /\
            PyFloat.nonneg (C_emp r) = false /\
            PyFloat.nonneg (Preco r) = false /\
            PyFloat.leb (Custo_bruto r) (Preco r) = false.
Proof.
  split; [|split].
  - unfold dados_wf. repeat split; vm_compute; reflexivity.
  - unfold dados_nao_negativos. cbn [N_emp N_loc Aud_incl N_aud dados_tarifa_infinita].
    repeat split; try lia; vm_compute; reflexivity.
  - eexists. split; [vm_compute; reflexivity|].
    repeat split; vm_compute; reflexivity.
Qed.

(** * The employee tariff *)

Section Tarifas.

Variables rp1 rp2 : float.
Hypothesis O1 : okf rp1 = true.
Hypothesis O2 : okf rp2 = true.
Hypothesis F1 : PyFloat.is_finite rp1 = true.
Hypothesis F2 : PyFloat.is_finite rp2 = true.
Hypothesis V1 : 0 <= val rp1.
Hypothesis V2 : 0 <= val rp2.

(** a converted count times a non-negative finite rate *)
Lemma parcela_spec (rp : float) (n : Z) (a : float) :
  okf rp = true -> PyFloat.is_finite rp = true -> 0 <= val rp ->
  PyFloat.of_int n = Some a ->
  okf (PyFloat.mul a rp) = true /\ val (PyFloat.mul a rp) = Gs (hv a * hv rp).
Proof.
  intros Or Fr Vr Ha. destruct (of_int_Some n a Ha) as (_ & Oa & Fa & _).
  exact (mul_spec a rp Oa Or Fa Fr).
Qed.

Lemma parcela_mono (rp : float) (n1 n2 : Z) (a1 a2 : float) :
  okf rp = true -> PyFloat.is_finite rp = true -> 0 <= val rp ->
  n1 <= n2 ->
  PyFloat.of_int n1 = Some a1 -> PyFloat.of_int n2 = Some a2 ->
  val (PyFloat.mul a1 rp) <= val (PyFloat.mul a2 rp).
Proof.
  intros Or Fr Vr Hn H1 H2.
  destruct (parcela_spec rp n1 a1 Or Fr Vr H1) as [_ E1].
  destruct (parcela_spec rp n2 a2 Or Fr Vr H2) as [_ E2].
  destruct (of_int_Some n1 a1 H1) as (_ & Oa1 & Fa1 & Va1).
  destruct (of_int_Some n2 a2 H2) as (_ & Oa2 & Fa2 & Va2).
  rewrite E1, E2. apply Gs_mono.
  pose proof (pow2_pos SC ltac:(unfold SC; lia)) as Hp.
  assert (Hv : val a1 <= val a2).
  { rewrite Va1, Va2. apply Gs_mono. nia. }
  pose proof (hv_le a1 a2 Oa1 Fa1 Oa2 Fa2 Hv) as Hh.
  apply (hv_sign rp Or Fr) in Vr. nia.
Qed.

Lemma parcela_exata (rp : float) (n : Z) (a : float) :
  okf rp = true -> PyFloat.is_finite rp = true -> 0 <= val rp ->
  - 2 ^ 53 <= n <= 2 ^ 53 ->
  PyFloat.of_int n = Some a ->
  val (PyFloat.mul a rp) = Gs (n * val rp).
Proof.
  intros Or Fr Vr Hn Ha.
  destruct (parcela_spec rp n a Or Fr Vr Ha) as [_ E].
  destruct (of_int_Some n a Ha) as (_ & Oa & Fa & Va).
  rewrite Gs_exato in Va by exact Hn.
  rewrite E. f_equal.
  rewrite (val_hv a Oa Fa), pow_SC in Va.
  pose proof (pow2_pos 1074 ltac:(lia)) as Hq.
  assert (hv a = n * 2 ^ 1074) by nia.
  rewrite (val_hv rp Or Fr). nia.
Qed.

(** the cost at or below one hundred employees: the tier-1 product *)
Lemma custo_ate_100 n c :
  n <= 100 ->
  calcular_custo_funcionarios n rp1 rp2 = Ok c ->
  exists a, PyFloat.of_int n = Some a /\ okf c = true /\
            val c = val (PyFloat.mul a rp1).
Proof.
  intros Hn H. destruct (custo_funcionarios_Ok _ _ _ _ H) as (a & b & Ha & Hb & ->).
  rewrite Z.min_l in Ha by lia. rewrite Z.max_l in Hb by lia.
  change (PyFloat.of_int 0) with (Some (S754_zero false)) in Hb.
  apply (f_equal (fun o => match o with Some x => x | None => b end)) in Hb.
  cbv beta iota in Hb. subst b.
  destruct (mul_zero_l false rp2 F2) as [s' ->].
  destruct (parcela_spec rp1 n a O1 F1 V1 Ha) as [Om _].
  destruct (add_zero_r (PyFloat.mul a rp1) s' Om) as [Ok1 Ev].
  exists a. auto.
Qed.

(** the cost from one hundred employees on: tier 1 in full plus tier 2 *)
Lemma custo_desde_100 n c :
  100 <= n ->
  calcular_custo_funcionarios n rp1 rp2 = Ok c ->
  exists b, PyFloat.of_int (n - 100) = Some b /\ okf c = true /\
            val c = G (val (PyFloat.mul (PyFloat.round_int 100) rp1) +
                       val (PyFloat.mul b rp2)) /\
            0 <= val (PyFloat.mul b rp2).
Proof.
  intros Hn H. destruct (custo_funcionarios_Ok _ _ _ _ H) as (a & b & Ha & Hb & ->).
  rewrite Z.min_r in Ha by lia. rewrite Z.max_r in Hb by lia.
  change (PyFloat.of_int 100) with (Some (PyFloat.round_int 100)) in Ha.
  apply (f_equal (fun o => match o with Some x => x | None => a end)) in Ha.
  cbv beta iota in Ha. subst a.
  assert (H100 : PyFloat.of_int 100 = Some (PyFloat.round_int 100)) by reflexivity.
  destruct (of_int_nn 100 _ ltac:(lia) H100) as (Oa & Fa & _ & Va).
  destruct (of_int_nn (n - 100) b ltac:(lia) Hb) as (Ob & Fb & _ & Vb).
  destruct (mul_nn _ rp1 Oa O1 Fa F1 Va V1) as (M1 & _ & N1).
  destruct (mul_nn b rp2 Ob O2 Fb F2 Vb V2) as (M2 & _ & N2).
  destruct (add_nn _ _ M1 M2 N1 N2) as (A1 & A2 & _).
  exists b. auto.
Qed.

Lemma custo_monotono n1 n2 c1 c2 :
  n1 <= n2 ->
  calcular_custo_funcionarios n1 rp1 rp2 = Ok c1 ->
  calcular_custo_funcionarios n2 rp1 rp2 = Ok c2 ->
  okf c1 = true /\ okf c2 = true /\ val c1 <= val c2.
Proof.
  intros Hn H1 H2.
  assert (H100 : PyFloat.of_int 100 = Some (PyFloat.round_int 100)) by reflexivity.
  destruct (Z_le_gt_dec n2 100) as [L2|G2].
  - destruct (custo_ate_100 n1 c1 ltac:(lia) H1) as (a1 & Ha1 & Oc1 & E1).
    destruct (custo_ate_100 n2 c2 L2 H2) as (a2 & Ha2 & Oc2 & E2).
    repeat split; auto. rewrite E1, E2.
    exact (parcela_mono rp1 n1 n2 a1 a2 O1 F1 V1 Hn Ha1 Ha2).
  - destruct (custo_desde_100 n2 c2 ltac:(lia) H2) as (b2 & Hb2 & Oc2 & E2 & N2).
    destruct (of_int_nn 100 _ ltac:(lia) H100) as (Oa & Fa & _ & Va).
    destruct (mul_nn _ rp1 Oa O1 Fa F1 Va V1) as (M1 & _ & P1).
    destruct (Z_le_gt_dec n1 100) as [L1|G1].
    + destruct (custo_ate_100 n1 c1 L1 H1) as (a1 & Ha1 & Oc1 & E1).
      repeat split; auto. rewrite E1, E2.
      pose proof (parcela_mono rp1 n1 100 a1 _ O1 F1 V1 L1 Ha1 H100) as Hm.
      set (t := val (PyFloat.mul (PyFloat.round_int 100) rp1)) in *.
      pose proof (G_mono t (t + val (PyFloat.mul b2 rp2)) ltac:(lia)) as Hg.
      unfold t in Hg at 1. rewrite (G_val _ M1 P1) in Hg. fold t in Hg. lia.
    + destruct (custo_desde_100 n1 c1 ltac:(lia) H1) as (b1 & Hb1 & Oc1 & E1 & N1).
      repeat split; auto. rewrite E1, E2.
      pose proof (parcela_mono rp2 (n1 - 100) (n2 - 100) b1 b2 O2 F2 V2 ltac:(lia) Hb1 Hb2).
      apply G_mono. lia.
Qed.

End Tarifas.

(** C5 (corrected).  For finite non-negative binary64 rates the employee
    cost is non-decreasing in the employee count wherever it is defined.
    Up to one hundred employees it is the exact product [n * Rp1] rounded
    once; above, it is the rounded sum of the rounded [100 * Rp1] and the
    rounded [(n - 100) * Rp2]: the increments are [Rp1] and [Rp2] before
    rounding. *)
Theorem custo_funcionarios_monotono (rp1 rp2 : float) :
  PyFloat.wf rp1 -> PyFloat.wf rp2 ->
  PyFloat.is_finite rp1 = true -> PyFloat.is_finite rp2 = true ->
  PyFloat.nonneg rp1 = true -> PyFloat.nonneg rp2 = true ->
  (forall (n1 n2 : Z) (c1 c2 : float),
     n1 <= n2 ->
     calcular_custo_funcionarios n1 rp1 rp2 = Ok c1 ->
     calcular_custo_funcionarios n2 rp1 rp2 = Ok c2 ->
     PyFloat.leb c1 c2 = true) /\
  (forall (n : Z) (c : float),
     - 2 ^ 53 <= n <= 100 ->
     calcular_custo_funcionarios n rp1 rp2 = Ok c ->
     val c = Gs (n * val rp1)) /\
  (forall (n : Z) (c : float),
     100 < n <= 2 ^ 53 ->
     calcular_custo_funcionarios n rp1 rp2 = Ok c ->
     val c = G (G (100 * val rp1) + G ((n - 100) * val rp2))).
Proof.
  intros W1 W2 F1 F2 N1 N2.
  destruct (nonneg_okf _ W1 N1) as [O1 V1].
  destruct (nonneg_okf _ W2 N2) as [O2 V2].
  assert (H100 : PyFloat.of_int 100 = Some (PyFloat.round_int 100)) by reflexivity.
  split; [|split].
  - intros n1 n2 c1 c2 Hn H1 H2.
    destruct (custo_monotono rp1 rp2 O1 O2 F1 F2 V1 V2 n1 n2 c1 c2 Hn H1 H2)
      as (Oc1 & Oc2 & Hv).
    apply leb_of_val; assumption.
  - intros n c Hn H.
    destruct (custo_ate_100 rp1 rp2 O1 F1 F2 V1 n c ltac:(lia) H) as (a & Ha & _ & E).
    rewrite E. apply (parcela_exata rp1 n a O1 F1 V1); [|exact Ha].
    change (2 ^ 53) with 9007199254740992 in *. lia.
  - intros n c Hn H.
    destruct (custo_desde_100 rp1 rp2 O1 O2 F1 F2 V1 V2 n c ltac:(lia) H)
      as (b & Hb & _ & E & _).
    rewrite E.
    rewrite (parcela_exata rp1 100 _ O1 F1 V1
               ltac:(change (2 ^ 53) with 9007199254740992; lia) H100).
    rewrite (parcela_exata rp2 (n - 100) b O2 F2 V2
               ltac:(change (2 ^ 53) with 9007199254740992 in *; lia) Hb).
    rewrite !Gs_nonneg by nia. reflexivity.
Qed.

Lemma custo_funcionarios_monotono_witness :
  PyFloat.leb (PyFloat.lit 1250) (PyFloat.lit 4000) = true.
Proof.
  refine (proj1 (custo_funcionarios_monotono (PyFloat.lit 25) (PyFloat.lit 30)
                   _ _ _ _ _ _) 50 150 _ _ _ _ _);
    try (vm_compute; reflexivity).
  lia.
Defined.

Lemma custo_funcionarios_contraexemplo :
  (PyFloat.nonneg PyFloat.inf = true /\ PyFloat.nonneg (PyFloat.lit 0) = true /\
   calcular_custo_funcionarios 0 PyFloat.inf (PyFloat.lit 0) = Ok PyFloat.nan /\
   calcular_custo_funcionarios 1 PyFloat.inf (PyFloat.lit 0) = Ok PyFloat.inf /\
   PyFloat.leb PyFloat.nan PyFloat.inf = false) /\
  (exists c2 c3 : float,
     calcular_custo_funcionarios 2 um_decimo (PyFloat.lit 0) = Ok c2 /\
     calcular_custo_funcionarios 3 um_decimo (PyFloat.lit 0) = Ok c3 /\
     PyFloat.eqb (PyFloat.sub c3 c2) um_decimo = false).
Proof.
  split.
  - repeat split; vm_compute; reflexivity.
  - eexists. eexists. split; [vm_compute; reflexivity|].
    split; [vm_compute; reflexivity|]. vm_compute. reflexivity.
Qed.

(** * The validator and the request handler *)

(** ** The rules as a list *)

Lemma primeira_violacao_In (rs : list regra) (d : DadosEntrada) (msg : string) :
  primeira_violacao rs d = Some msg -> In msg (map snd rs).
Proof.
  induction rs as [|[viola msg'] rs IH]; cbn [primeira_violacao map snd].
  - intros H. discriminate H.
  - destruct (viola d).
    + intros H. left. congruence.
    + intros H. right. apply IH. exact H.
Qed.

Lemma primeira_violacao_existe (rs : list regra) (d : DadosEntrada) (r : regra) :
  In r rs -> fst r d = true -> exists msg, primeira_violacao rs d = Some msg.
Proof.
  induction rs as [|[viola msg'] rs IH]; cbn [primeira_violacao In].
  - intros [].
  - intros [E|Hin] Hr.
    + subst r. cbn [fst] in Hr. rewrite Hr. eauto.
    + destruct (viola d); [eauto|]. apply IH; assumption.
Qed.

Lemma primeira_violacao_None (rs : list regra) (d : DadosEntrada) :
  primeira_violacao rs d = None <-> forall r, In r rs -> fst r d = false.
Proof.
  induction rs as [|[viola msg'] rs IH]; cbn [primeira_violacao In].
  - split; [intros _ r []|reflexivity].
  - split.
    + destruct (viola d) eqn:E; [intros H; discriminate H|].
      intros H r [<-|Hin]; [exact E|]. apply IH; assumption.
    + intros H. pose proof (H (viola, msg') (or_introl eq_refl)) as E.
      cbn [fst] in E. rewrite E.
      apply IH. intros r Hin. apply H. right. exact Hin.
Qed.

Lemma mensagens_regras_codigo : map snd regras_codigo = mensagens_de_regra.
Proof. reflexivity. Qed.

Lemma validar_regras_lista (d : DadosEntrada) :
  validar_regras d = veredito (primeira_violacao regras_codigo d).
Proof.
  unfold validar_regras, regras_codigo, primeira_violacao,
    r_F_base, r_N_emp, r_Rp, r_N_loc, r_R_loc, r_aud, r_aud_ordem, r_R_aud,
    r_m_neg, r_m_alta.
  repeat match goal with
         | |- (if ?c then _ else _) = _ => destruct c; [reflexivity|]
         end.
  reflexivity.
Qed.

Lemma validar_regras_aceita (d : DadosEntrada) :
  fst (validar_regras d) = true ->
  validar_regras d = (true, EmptyString) /\
  0 <= N_emp d /\ 0 <= N_loc d /\ 0 <= Aud_incl d /\ Aud_incl d <= N_aud d.
Proof.
  rewrite validar_regras_lista.
  destruct (primeira_violacao regras_codigo d) as [msg|] eqn:E;
    cbn [veredito fst]; [intros H; discriminate H|intros _].
  split; [reflexivity|].
  pose proof (proj1 (primeira_violacao_None _ _) E) as Hall.
  pose proof (Hall r_N_emp ltac:(cbn; tauto)) as H1.
  pose proof (Hall r_N_loc ltac:(cbn; tauto)) as H2.
  pose proof (Hall r_aud ltac:(cbn; tauto)) as H3.
  pose proof (Hall r_aud_ordem ltac:(cbn; tauto)) as H4.
  cbn [fst r_N_emp r_N_loc r_aud r_aud_ordem] in H1, H2, H3, H4.
  apply orb_false_elim in H3. destruct H3 as [H3 H5].
  apply Z.ltb_ge in H1, H2, H3, H4. lia.
Qed.

Lemma validar_regras_rejeita (d : DadosEntrada) (r : regra) :
  In r regras_codigo -> fst r d = true ->
  exists msg, validar_regras d = (false, msg) /\ In msg mensagens_de_regra.
Proof.
  intros Hin Hr. rewrite validar_regras_lista.
  destruct (primeira_violacao_existe _ d r Hin Hr) as [msg Hm].
  exists msg. rewrite Hm. split; [reflexivity|].
  rewrite <- mensagens_regras_codigo. exact (primeira_violacao_In _ _ _ Hm).
Qed.

Lemma msg_malformado_nao_e_regra : ~ In msg_malformado mensagens_de_regra.
Proof.
  unfold mensagens_de_regra. cbn [In].
  intros H. repeat (destruct H as [H|H]; [discriminate H|]). exact H.
Qed.

Lemma LIMITE_grande : 2 ^ 53 < LIMITE.
Proof. vm_compute. reflexivity. Qed.

(** when the calculation returns and when it raises *)
Lemma calcular_precificacao_total (d : DadosEntrada) :
  0 <= N_emp d -> 0 <= N_loc d ->
  (N_emp d - 100 < LIMITE -> N_loc d < LIMITE -> N_aud d - Aud_incl d < LIMITE ->
   exists r, calcular_precificacao d = Ok r) /\
  (LIMITE <= N_emp d - 100 \/ LIMITE <= N_loc d \/ LIMITE <= N_aud d - Aud_incl d ->
   calcular_precificacao d = Raise OverflowError).
Proof.
  intros He Hl. pose proof LIMITE_grande as HL.
  change (2 ^ 53) with 9007199254740992 in HL.
  destruct (proj2 (of_int_Some_iff (Z.min (N_emp d) 100)) ltac:(lia)) as [a Ha].
  unfold calcular_precificacao, calcular_custo_funcionarios, calcular_custo_postos,
    calcular_custo_audiencias_extras, res_bind, int_mul_float.
  rewrite Ha.
  change (int_add_float 1 (m d)) with (Ok (A := float) (PyFloat.add (PyFloat.lit 1) (m d))).
  split.
  - intros H1 H2 H3.
    destruct (proj2 (of_int_Some_iff (Z.max 0 (N_emp d - 100))) ltac:(lia)) as [b ->].
    destruct (proj2 (of_int_Some_iff (N_loc d)) ltac:(lia)) as [c ->].
    destruct (proj2 (of_int_Some_iff (Z.max 0 (N_aud d - Aud_incl d))) ltac:(lia)) as [x ->].
    eauto.
  - intros H.
    destruct (Z_lt_le_dec (N_emp d - 100) LIMITE) as [L1|G1].
    + destruct (proj2 (of_int_Some_iff (Z.max 0 (N_emp d - 100))) ltac:(lia)) as [b ->].
      destruct (Z_lt_le_dec (N_loc d) LIMITE) as [L2|G2].
      * destruct (proj2 (of_int_Some_iff (N_loc d)) ltac:(lia)) as [c ->].
        rewrite (proj2 (of_int_None_iff (Z.max 0 (N_aud d - Aud_incl d))) ltac:(lia)).
        reflexivity.
      * rewrite (proj2 (of_int_None_iff (N_loc d)) ltac:(lia)). reflexivity.
    + rewrite (proj2 (of_int_None_iff (Z.max 0 (N_emp d - 100))) ltac:(lia)).
      reflexivity.
Qed.

Section PipelineProps.

Variable py_float : string -> option float.
Variable py_int : string -> option Z.


Ltac passo H :=
  match type of H with
  | (?g ≫= _) = Some _ =>
      let E := fresh "E" in
      destruct g eqn:E; cbn [mbind option_bind] in H; [|discriminate H]
  end.

Lemma ler_campos_Some (form_data : gmap string string) (d : DadosEntrada) :
  ler_campos py_float py_int form_data = Some d ->
  get_float py_float form_data "F_base" = Some (F_base d) /\
  get_int py_int form_data "N_emp" = Some (N_emp d) /\
  get_float py_float form_data "Rp1" = Some (Rp1 d) /\
  get_float py_float form_data "Rp2" = Some (Rp2 d) /\
  get_int py_int form_data "N_loc" = Some (N_loc d) /\
  get_float py_float form_data "R_loc" = Some (R_loc d) /\
  get_int py_int form_data "Aud_incl" = Some (Aud_incl d) /\
  get_int py_int form_data "N_aud" = Some (N_aud d) /\
  get_float py_float form_data "R_aud" = Some (R_aud d) /\
  get_float py_float form_data "m" = Some (m d).
Proof.
  unfold ler_campos. intros H.
  do 10 passo H.
  apply (f_equal (fun o => match o with Some x => x | None => d end)) in H.
  cbv beta iota in H. subst d. cbn. repeat split; reflexivity.
Qed.

Lemma item_get_float (form_data : gmap string string) (k : string) (x : float) :
  item_float py_float form_data k = Some x -> get_float py_float form_data k = Some x.
Proof.
  unfold item_float, get_float. destruct (form_data !! k); cbn; [auto|].
  intros H. discriminate H.
Qed.

Lemma item_get_int (form_data : gmap string string) (k : string) (n : Z) :
  item_int py_int form_data k = Some n -> get_int py_int form_data k = Some n.
Proof.
  unfold item_int, get_int. destruct (form_data !! k); cbn; [auto|].
  intros H. discriminate H.
Qed.

Lemma get_item_float (form_data : gmap string string) (k : string) :
  form_data !! k <> None -> item_float py_float form_data k = get_float py_float form_data k.
Proof.
  unfold item_float, get_float. destruct (form_data !! k); cbn; [auto|].
  intros H. contradiction H. reflexivity.
Qed.

Lemma get_item_int (form_data : gmap string string) (k : string) :
  form_data !! k <> None -> item_int py_int form_data k = get_int py_int form_data k.
Proof.
  unfold item_int, get_int. destruct (form_data !! k); cbn; [auto|].
  intros H. contradiction H. reflexivity.
Qed.

Lemma item_float_presente (form_data : gmap string string) (k : string) (x : float) :
  item_float py_float form_data k = Some x -> form_data !! k <> None.
Proof.
  unfold item_float. destruct (form_data !! k); cbn; intros H; [discriminate|discriminate H].
Qed.

Lemma item_int_presente (form_data : gmap string string) (k : string) (n : Z) :
  item_int py_int form_data k = Some n -> form_data !! k <> None.
Proof.
  unfold item_int. destruct (form_data !! k); cbn; intros H; [discriminate|discriminate H].
Qed.

(** a record built by [processar_dados_formulario] holds the values the
    validator read, and every field was submitted *)
Lemma processar_Some (form_data : gmap string string) (d : DadosEntrada) :
  processar_dados_formulario py_float py_int form_data = Some d ->
  ler_campos py_float py_int form_data = Some d /\ forall k, In k campos -> form_data !! k <> None.
Proof.
  unfold processar_dados_formulario, ler_campos. intros H.
  do 10 passo H.
  repeat match goal with
         | E : item_float py_float _ _ = Some _ |- _ =>
             pose proof (item_float_presente _ _ _ E);
             apply item_get_float in E; rewrite E
         | E : item_int py_int _ _ = Some _ |- _ =>
             pose proof (item_int_presente _ _ _ E);
             apply item_get_int in E; rewrite E
         end.
  split; [exact H|].
  intros k Hk. unfold campos in Hk. cbn [In] in Hk.
  repeat (destruct Hk as [<-|Hk]; [assumption|]). destruct Hk.
Qed.

Lemma processar_de_ler_campos (form_data : gmap string string) :
  (forall k, In k campos -> form_data !! k <> None) ->
  processar_dados_formulario py_float py_int form_data = ler_campos py_float py_int form_data.
Proof.
  intros H. unfold processar_dados_formulario, ler_campos.
  rewrite !get_item_float, !get_item_int by (apply H; unfold campos; cbn [In]; tauto).
  reflexivity.
Qed.

End PipelineProps.

Lemma chave_ausente_ou_todas (form_data : gmap string string) (ks : list string) :
  (exists k, In k ks /\ form_data !! k = None) \/
  (forall k, In k ks -> form_data !! k <> None).
Proof.
  induction ks as [|k ks IH].
  - right. intros k [].
  - destruct (form_data !! k) as [s|] eqn:E.
    + destruct IH as [(k' & Hin & Hn)|Hall].
      * left. exists k'. split; [right; exact Hin|exact Hn].
      * right. intros k' [<-|Hin]; [rewrite E; discriminate|apply Hall; exact Hin].
    + left. exists k. split; [left; reflexivity|exact E].
Qed.

Section Validacao.

Variable py_float : string -> option float.
Variable py_int : string -> option Z.

(** C3 (corrected).  When the ten fields parse, the validator rejects with
    the message of the first rule violated in the order of the code: base
    fee, employee count, employee rates, location count, location rate,
    hearing counts, total against included hearings, extra-hearing rate,
    negative margin, margin above 10; it accepts when none is violated. *)
Theorem validar_primeira_violacao (form_data : gmap string string) (d : DadosEntrada) :
  ler_campos py_float py_int form_data = Some d ->
  validar_dados_entrada py_float py_int form_data =
  veredito (primeira_violacao regras_codigo d).
Proof.
  intros H. unfold validar_dados_entrada. rewrite H. apply validar_regras_lista.
Qed.

(** C8 (confirmed).  When the ten fields parse and the total hearings are
    fewer than the included ones, the validator rejects with a rule
    message. *)
Theorem audiencias_abaixo_das_incluidas (form_data : gmap string string) (d : DadosEntrada) :
  ler_campos py_float py_int form_data = Some d ->
  N_aud d < Aud_incl d ->
  exists msg, validar_dados_entrada py_float py_int form_data = (false, msg) /\
              In msg mensagens_de_regra.
Proof.
  intros H Hlt. unfold validar_dados_entrada. rewrite H.
  apply (validar_regras_rejeita d r_aud_ordem).
  - unfold regras_codigo. cbn [In]. tauto.
  - cbn [fst r_aud_ordem]. apply Z.ltb_lt. exact Hlt.
Qed.

Lemma campo_negativo_viola (form_data : gmap string string) (d : DadosEntrada) :
  ler_campos py_float py_int form_data = Some d ->
  campo_negativo py_float py_int form_data ->
  exists r, In r regras_codigo /\ fst r d = true.
Proof.
  intros H Hneg.
  destruct (ler_campos_Some _ _ _ _ H)
    as (G1 & G2 & G3 & G4 & G5 & G6 & G7 & G8 & G9 & G10).
  unfold campo_negativo, float_negativo, int_negativo, PyFloat.negative in Hneg.
  rewrite G1, G2, G3, G4, G5, G6, G7, G8, G9, G10 in Hneg.
  unfold regras_codigo.
  destruct Hneg as [(x & E & Hx)|[(n & E & Hn)|[(x & E & Hx)|[(x & E & Hx)|
    [(n & E & Hn)|[(x & E & Hx)|[(n & E & Hn)|[(n & E & Hn)|[(x & E & Hx)|
    (x & E & Hx)]]]]]]]]];
    injection E as E; subst.
  - exists r_F_base. cbn [In fst r_F_base]. split; [tauto|exact Hx].
  - exists r_N_emp. cbn [In fst r_N_emp]. split; [tauto|apply Z.ltb_lt; exact Hn].
  - exists r_Rp. cbn [In fst r_Rp]. split; [tauto|rewrite Hx; reflexivity].
  - exists r_Rp. cbn [In fst r_Rp]. split; [tauto|rewrite Hx; apply orb_true_r].
  - exists r_N_loc. cbn [In fst r_N_loc]. split; [tauto|apply Z.ltb_lt; exact Hn].
  - exists r_R_loc. cbn [In fst r_R_loc]. split; [tauto|exact Hx].
  - exists r_aud. cbn [In fst r_aud]. split; [tauto|].
    apply orb_true_intro. left. apply Z.ltb_lt. exact Hn.
  - exists r_aud. cbn [In fst r_aud]. split; [tauto|].
    apply orb_true_intro. right. apply Z.ltb_lt. exact Hn.
  - exists r_R_aud. cbn [In fst r_R_aud]. split; [tauto|exact Hx].
  - exists r_m_neg. cbn [In fst r_m_neg]. split; [tauto|exact Hx].
Qed.

Lemma index_rejeitado (form_data : gmap string string) (msg : string) :
  validar_dados_entrada py_float py_int form_data = (false, msg) ->
  index py_float py_int POST form_data =
  {| resultado := None; flashes := [(msg, "error"%string)]; chamadas := [] |}.
Proof. intros H. unfold index. rewrite H. reflexivity. Qed.

(** C7 (corrected).  A form in which some field parses to a negative value
    is rejected, nothing is calculated and the rejection is flashed; the
    message is one of the rule messages when all ten fields parse, and the
    malformed-input message when another field does not. *)
Theorem campo_negativo_rejeitado (form_data : gmap string string) :
  campo_negativo py_float py_int form_data ->
  exists msg,
    validar_dados_entrada py_float py_int form_data = (false, msg) /\
    (ler_campos py_float py_int form_data <> None -> In msg mensagens_de_regra) /\
    (ler_campos py_float py_int form_data = None -> msg = msg_malformado) /\
    index py_float py_int POST form_data =
    {| resultado := None; flashes := [(msg, "error"%string)]; chamadas := [] |}.
Proof.
  intros Hneg.
  destruct (ler_campos py_float py_int form_data) as [d|] eqn:E.
  - destruct (campo_negativo_viola _ _ E Hneg) as (r & Hin & Hr).
    destruct (validar_regras_rejeita d r Hin Hr) as (msg & Hv & Hm).
    assert (Hval : validar_dados_entrada py_float py_int form_data = (false, msg)).
    { unfold validar_dados_entrada. rewrite E. exact Hv. }
    exists msg. split; [exact Hval|]. split; [intros _; exact Hm|].
    split; [intros H; discriminate H|]. apply index_rejeitado. exact Hval.
  - assert (Hval : validar_dados_entrada py_float py_int form_data = (false, msg_malformado)).
    { unfold validar_dados_entrada. rewrite E. reflexivity. }
    exists msg_malformado. split; [exact Hval|].
    split; [intros H; contradiction H; reflexivity|].
    split; [reflexivity|]. apply index_rejeitado. exact Hval.
Qed.

(** C4 (corrected).  A POST ends in exactly one of four ways: the validator
    rejects and its message is flashed; the validator accepts but a field
    is absent, no record is built and a processing error is flashed; a
    record is built but a count is too large for a float and the overflow
    is flashed; or a record is built and its result rendered.  When the
    validator accepts and all ten fields are present a record is built, and
    with the counts below [LIMITE] a result is rendered. *)
Theorem index_desfechos (form_data : gmap string string) :
  ((exists msg,
      validar_dados_entrada py_float py_int form_data = (false, msg) /\
      index py_float py_int POST form_data =
      {| resultado := None; flashes := [(msg, "error"%string)]; chamadas := [] |})
   \/
   (validar_dados_entrada py_float py_int form_data = (true, EmptyString) /\
    (exists k, In k campos /\ form_data !! k = None) /\
    processar_dados_formulario py_float py_int form_data = None /\
    index py_float py_int POST form_data =
    {| resultado := None; flashes := [(msg_processar, "error"%string)]; chamadas := [] |})
   \/
   (exists d,
      validar_dados_entrada py_float py_int form_data = (true, EmptyString) /\
      processar_dados_formulario py_float py_int form_data = Some d /\
      (LIMITE <= N_emp d - 100 \/ LIMITE <= N_loc d \/ LIMITE <= N_aud d - Aud_incl d) /\
      calcular_precificacao d = Raise OverflowError /\
      index py_float py_int POST form_data =
      {| resultado := None;
         flashes := [(msg_inesperado OverflowError, "error"%string)];
         chamadas := [d] |})
   \/
   (exists d r,
      validar_dados_entrada py_float py_int form_data = (true, EmptyString) /\
      processar_dados_formulario py_float py_int form_data = Some d /\
      N_emp d - 100 < LIMITE /\ N_loc d < LIMITE /\ N_aud d - Aud_incl d < LIMITE /\
      calcular_precificacao d = Ok r /\
      index py_float py_int POST form_data =
      {| resultado := Some r;
         flashes := [(msg_sucesso, "success"%string)];
         chamadas := [d] |}))
  /\
  (fst (validar_dados_entrada py_float py_int form_data) = true ->
   (forall k, In k campos -> form_data !! k <> None) ->
   exists d,
     processar_dados_formulario py_float py_int form_data = Some d /\
     (N_emp d - 100 < LIMITE -> N_loc d < LIMITE -> N_aud d - Aud_incl d < LIMITE ->
      exists r, resultado (index py_float py_int POST form_data) = Some r)).
Proof.
  assert (Hcases :
    (exists msg, validar_dados_entrada py_float py_int form_data = (false, msg)) \/
    (exists d, ler_campos py_float py_int form_data = Some d /\
               validar_dados_entrada py_float py_int form_data = (true, EmptyString) /\
               0 <= N_emp d /\ 0 <= N_loc d)).
  { unfold validar_dados_entrada.
    destruct (ler_campos py_float py_int form_data) as [d|]; [|left; eauto].
    destruct (validar_regras d) as [[|] msg] eqn:E.
    - right. exists d. destruct (validar_regras_aceita d) as (Hv & H1 & H2 & _).
      { rewrite E. reflexivity. }
      rewrite <- E. split; [reflexivity|]. split; [exact Hv|]. split; assumption.
    - left. eauto. }
  split.
  - destruct Hcases as [[msg Hv]|(d & Hl & Hv & Ne & Nl)].
    { left. exists msg. split; [exact Hv|]. apply index_rejeitado. exact Hv. }
    right.
    destruct (processar_dados_formulario py_float py_int form_data) as [d'|] eqn:Ep.
    + destruct (processar_Some _ _ _ _ Ep) as [Hl' _].
      assert (d' = d) by congruence. subst d'.
      destruct (calcular_precificacao_total d Ne Nl) as [Hok Hraise].
      right.
      destruct (Z_lt_le_dec (N_emp d - 100) LIMITE) as [L1|G1];
        [destruct (Z_lt_le_dec (N_loc d) LIMITE) as [L2|G2];
         [destruct (Z_lt_le_dec (N_aud d - Aud_incl d) LIMITE) as [L3|G3]|]|].
      * right. destruct (Hok L1 L2 L3) as [r Hr]. exists d, r.
        repeat split; try assumption.
        unfold index. rewrite Hv, Ep, Hr. reflexivity.
      * left. exists d. pose proof (Hraise ltac:(tauto)) as Hr.
        repeat split; try assumption; [tauto|].
        unfold index. rewrite Hv, Ep, Hr. reflexivity.
      * left. exists d. pose proof (Hraise ltac:(tauto)) as Hr.
        repeat split; try assumption; [tauto|].
        unfold index. rewrite Hv, Ep, Hr. reflexivity.
      * left. exists d. pose proof (Hraise ltac:(tauto)) as Hr.
        repeat split; try assumption; [tauto|].
        unfold index. rewrite Hv, Ep, Hr. reflexivity.
    + left. split; [exact Hv|]. split.
      * destruct (chave_ausente_ou_todas form_data campos) as [Hex|Hall];
          [exact Hex|exfalso].
        rewrite (processar_de_ler_campos _ _ _ Hall) in Ep. congruence.
      * split; [reflexivity|]. unfold index. rewrite Hv, Ep. reflexivity.
  - intros Hacc Hall.
    destruct Hcases as [[msg Hv]|(d & Hl & Hv & Ne & Nl)].
    { rewrite Hv in Hacc. discriminate Hacc. }
    exists d. rewrite (processar_de_ler_campos _ _ _ Hall). split; [exact Hl|].
    intros L1 L2 L3.
    destruct (proj1 (calcular_precificacao_total d Ne Nl) L1 L2 L3) as [r Hr].
    exists r. unfold index.
    rewrite Hv, (processar_de_ler_campos _ _ _ Hall), Hl, Hr. reflexivity.
Qed.

End Validacao.

(** * The claims at concrete forms *)

Lemma validar_primeira_violacao_witness :
  validar_dados_entrada Decimal.py_float Decimal.py_int form_exemplo =
  veredito (primeira_violacao regras_codigo dados_exemplo).
Proof.
  apply (validar_primeira_violacao Decimal.py_float Decimal.py_int form_exemplo dados_exemplo).
  vm_compute. reflexivity.
Defined.

Lemma validar_ordem_contraexemplo :
  ler_campos Decimal.py_float Decimal.py_int form_ordem = Some dados_ordem /\
  validar_dados_entrada Decimal.py_float Decimal.py_int form_ordem = (false, msg_aud_ordem) /\
  veredito (primeira_violacao regras_spec dados_ordem) = (false, msg_R_aud) /\
  validar_dados_entrada Decimal.py_float Decimal.py_int form_ordem <>
  veredito (primeira_violacao regras_spec dados_ordem).
Proof.
  split; [vm_compute; reflexivity|].
  split; [vm_compute; reflexivity|].
  split; [vm_compute; reflexivity|].
  vm_compute. intros H. discriminate H.
Qed.

Lemma audiencias_abaixo_das_incluidas_witness :
  exists msg, validar_dados_entrada Decimal.py_float Decimal.py_int form_ordem = (false, msg) /\
              In msg mensagens_de_regra.
Proof.
  apply (audiencias_abaixo_das_incluidas Decimal.py_float Decimal.py_int form_ordem dados_ordem).
  - vm_compute. reflexivity.
  - cbn [N_aud Aud_incl dados_ordem]. lia.
Defined.

Lemma campo_negativo_form_ordem : campo_negativo Decimal.py_float Decimal.py_int form_ordem.
Proof.
  unfold campo_negativo. do 8 right. left.
  exists (PyFloat.round_int (-1)). split; vm_compute; reflexivity.
Qed.

Lemma campo_negativo_rejeitado_witness :
  exists msg,
    validar_dados_entrada Decimal.py_float Decimal.py_int form_ordem = (false, msg) /\
    (ler_campos Decimal.py_float Decimal.py_int form_ordem <> None ->
     In msg mensagens_de_regra) /\
    (ler_campos Decimal.py_float Decimal.py_int form_ordem = None -> msg = msg_malformado) /\
    index Decimal.py_float Decimal.py_int POST form_ordem =
    {| resultado := None; flashes := [(msg, "error"%string)]; chamadas := [] |}.
Proof.
  apply (campo_negativo_rejeitado Decimal.py_float Decimal.py_int form_ordem).
  unfold campo_negativo. do 8 right. left.
  exists (PyFloat.round_int (-1)). split; vm_compute; reflexivity.
Defined.

Lemma campo_negativo_malformado_contraexemplo :
  campo_negativo Decimal.py_float Decimal.py_int form_negativo_malformado /\
  validar_dados_entrada Decimal.py_float Decimal.py_int form_negativo_malformado =
  (false, msg_malformado) /\
  ~ In msg_malformado mensagens_de_regra.
Proof.
  split; [|split].
  - unfold campo_negativo. left.
    exists (PyFloat.round_int (-1)). split; vm_compute; reflexivity.
  - vm_compute. reflexivity.
  - exact msg_malformado_nao_e_regra.
Qed.

Lemma index_aceito_sem_resultado :
  (validar_dados_entrada Decimal.py_float Decimal.py_int form_vazio = (true, EmptyString) /\
   processar_dados_formulario Decimal.py_float Decimal.py_int form_vazio = None /\
   index Decimal.py_float Decimal.py_int POST form_vazio =
   {| resultado := None; flashes := [(msg_processar, "error"%string)]; chamadas := [] |}) /\
  (validar_dados_entrada Decimal.py_float Decimal.py_int form_enorme = (true, EmptyString) /\
   (exists d, processar_dados_formulario Decimal.py_float Decimal.py_int form_enorme = Some d /\
              N_emp d = 10 ^ 400 /\
              calcular_precificacao d = Raise OverflowError) /\
   resultado (index Decimal.py_float Decimal.py_int POST form_enorme) = None /\
   flashes (index Decimal.py_float Decimal.py_int POST form_enorme) =
   [(msg_inesperado OverflowError, "error"%string)]).
Proof.
  split.
  - repeat split; vm_compute; reflexivity.
  - split; [vm_compute; reflexivity|]. split.
    + eexists. split; [vm_compute; reflexivity|]. split; vm_compute; reflexivity.
    + split; vm_compute; reflexivity.
Qed.

(** * Further properties of the validator and the handler *)

Lemma regras_satisfeitas_lista (d : DadosEntrada) :
  primeira_violacao regras_codigo d = None <-> regras_satisfeitas d.
Proof.
  rewrite primeira_violacao_None. unfold regras_satisfeitas, PyFloat.negative. split.
  - intros H.
    pose proof (H r_F_base ltac:(cbn; tauto)) as H1.
    pose proof (H r_N_emp ltac:(cbn; tauto)) as H2.
    pose proof (H r_Rp ltac:(cbn; tauto)) as H3.
    pose proof (H r_N_loc ltac:(cbn; tauto)) as H4.
    pose proof (H r_R_loc ltac:(cbn; tauto)) as H5.
    pose proof (H r_aud ltac:(cbn; tauto)) as H6.
    pose proof (H r_aud_ordem ltac:(cbn; tauto)) as H7.
    pose proof (H r_R_aud ltac:(cbn; tauto)) as H8.
    pose proof (H r_m_neg ltac:(cbn; tauto)) as H9.
    pose proof (H r_m_alta ltac:(cbn; tauto)) as H10.
    cbn [fst r_F_base r_N_emp r_Rp r_N_loc r_R_loc r_aud r_aud_ordem r_R_aud
         r_m_neg r_m_alta] in *.
    apply orb_false_elim in H3, H6. destruct H3 as [H3 H3'], H6 as [H6 H6'].
    apply Z.ltb_ge in H2, H4, H6, H6', H7.
    repeat split; try assumption; lia.
  - intros (H1 & H2 & H3 & H3' & H4 & H5 & H6 & H7 & H8 & H9 & H10) r Hin.
    unfold regras_codigo in Hin. cbn [In] in Hin.
    repeat (destruct Hin as [<-|Hin]); try (destruct Hin);
      cbn [fst r_F_base r_N_emp r_Rp r_N_loc r_R_loc r_aud r_aud_ordem r_R_aud
           r_m_neg r_m_alta];
      try assumption; try (apply Z.ltb_ge; lia).
    + rewrite H3, H3'. reflexivity.
    + apply orb_false_intro; apply Z.ltb_ge; lia.
Qed.

Section Extras.

Variable py_float : string -> option float.
Variable py_int : string -> option Z.

(** X1.  The validator never accepts with a message: whenever its flag is
    true the message is empty.  It accepts exactly when the ten conversions
    succeed (an absent field counting as zero) and the record they give
    violates no rule. *)
Theorem validar_aceita_sse (form_data : gmap string string) :
  (fst (validar_dados_entrada py_float py_int form_data) = true ->
   validar_dados_entrada py_float py_int form_data = (true, EmptyString)) /\
  (validar_dados_entrada py_float py_int form_data = (true, EmptyString) <->
   exists d, ler_campos py_float py_int form_data = Some d /\ regras_satisfeitas d).
Proof.
  unfold validar_dados_entrada.
  destruct (ler_campos py_float py_int form_data) as [d|].
  - rewrite validar_regras_lista.
    pose proof (regras_satisfeitas_lista d) as Hs.
    destruct (primeira_violacao regras_codigo d) as [msg|]; cbn [veredito fst].
    + split; [intros H; discriminate H|]. split; [intros H; discriminate H|].
      intros (d' & E & Hr). injection E as <-.
      apply Hs in Hr. discriminate Hr.
    + split; [reflexivity|]. split; [|reflexivity].
      intros _. exists d. split; [reflexivity|]. apply Hs. reflexivity.
  - cbn [fst]. split; [intros H; discriminate H|].
    split; [intros H; discriminate H|]. intros (d & E & _). discriminate E.
Qed.

Lemma ler_campos_None (form_data : gmap string string) :
  ler_campos py_float py_int form_data = None <->
  conversao_falha py_float py_int form_data.
Proof.
  unfold ler_campos, conversao_falha.
  destruct (get_float py_float form_data "F_base"); cbn [mbind option_bind]; [|tauto].
  destruct (get_int py_int form_data "N_emp"); cbn [mbind option_bind]; [|tauto].
  destruct (get_float py_float form_data "Rp1"); cbn [mbind option_bind]; [|tauto].
  destruct (get_float py_float form_data "Rp2"); cbn [mbind option_bind]; [|tauto].
  destruct (get_int py_int form_data "N_loc"); cbn [mbind option_bind]; [|tauto].
  destruct (get_float py_float form_data "R_loc"); cbn [mbind option_bind]; [|tauto].
  destruct (get_int py_int form_data "Aud_incl"); cbn [mbind option_bind]; [|tauto].
  destruct (get_int py_int form_data "N_aud"); cbn [mbind option_bind]; [|tauto].
  destruct (get_float py_float form_data "R_aud"); cbn [mbind option_bind]; [|tauto].
  destruct (get_float py_float form_data "m"); cbn [mbind option_bind]; [|tauto].
  split; [intros H; discriminate H|].
  intros H. repeat (destruct H as [H|H]; [discriminate H|]). discriminate H.
Qed.

(** X2.  The validator answers with the message for malformed numbers
    exactly when one of the ten conversions fails. *)
Theorem validar_malformado_sse (form_data : gmap string string) :
  validar_dados_entrada py_float py_int form_data = (false, msg_malformado) <->
  conversao_falha py_float py_int form_data.
Proof.
  rewrite <- ler_campos_None. unfold validar_dados_entrada.
  destruct (ler_campos py_float py_int form_data) as [d|]; [|tauto].
  split; [|intros H; discriminate H].
  rewrite validar_regras_lista. intros H. exfalso.
  destruct (primeira_violacao regras_codigo d) as [msg|] eqn:E; cbn [veredito] in H.
  - apply primeira_violacao_In in E. rewrite mensagens_regras_codigo in E.
    injection H as H. subst msg. exact (msg_malformado_nao_e_regra E).
  - discriminate H.
Qed.

(** X3.  The form processor builds a record exactly when all ten fields are
    present and convert; the record is then the one the validator read. *)
Theorem processar_sse (form_data : gmap string string) (d : DadosEntrada) :
  processar_dados_formulario py_float py_int form_data = Some d <->
  ler_campos py_float py_int form_data = Some d /\
  forall k, In k campos -> form_data !! k <> None.
Proof.
  split.
  - apply processar_Some.
  - intros [H Hall]. rewrite (processar_de_ler_campos _ _ _ Hall). exact H.
Qed.

Lemma get_float_ext (f g : gmap string string) (k : string) :
  f !! k = g !! k -> get_float py_float f k = get_float py_float g k.
Proof. unfold get_float. intros ->. reflexivity. Qed.

Lemma get_int_ext (f g : gmap string string) (k : string) :
  f !! k = g !! k -> get_int py_int f k = get_int py_int g k.
Proof. unfold get_int. intros ->. reflexivity. Qed.

Lemma item_float_ext (f g : gmap string string) (k : string) :
  f !! k = g !! k -> item_float py_float f k = item_float py_float g k.
Proof. unfold item_float. intros ->. reflexivity. Qed.

Lemma item_int_ext (f g : gmap string string) (k : string) :
  f !! k = g !! k -> item_int py_int f k = item_int py_int g k.
Proof. unfold item_int. intros ->. reflexivity. Qed.

(** X4.  Only the ten named fields matter: two forms that agree on them get
    the same verdict, the same record and the same response, whatever else
    they carry. *)
Theorem so_os_dez_campos (f g : gmap string string) (met : metodo) :
  (forall k, In k campos -> f !! k = g !! k) ->
  validar_dados_entrada py_float py_int f = validar_dados_entrada py_float py_int g /\
  processar_dados_formulario py_float py_int f =
  processar_dados_formulario py_float py_int g /\
  index py_float py_int met f = index py_float py_int met g.
Proof.
  intros H.
  assert (Hk : forall k, In k campos -> f !! k = g !! k) by exact H.
  assert (Hl : ler_campos py_float py_int f = ler_campos py_float py_int g).
  { unfold ler_campos.
    rewrite !(get_float_ext f g), !(get_int_ext f g)
      by (apply Hk; unfold campos; cbn [In]; tauto).
    reflexivity. }
  assert (Hp : processar_dados_formulario py_float py_int f =
               processar_dados_formulario py_float py_int g).
  { unfold processar_dados_formulario.
    rewrite !(item_float_ext f g), !(item_int_ext f g)
      by (apply Hk; unfold campos; cbn [In]; tauto).
    reflexivity. }
  assert (Hv : validar_dados_entrada py_float py_int f =
               validar_dados_entrada py_float py_int g).
  { unfold validar_dados_entrada. rewrite Hl. reflexivity. }
  split; [exact Hv|]. split; [exact Hp|].
  unfold index. rewrite Hv, Hp. reflexivity.
Qed.

(** X5.  Every POST flashes exactly one message and calls the calculator at
    most once.  No result is rendered exactly when the flash is an error;
    a rendered result comes with the success flash and is the calculator's
    value on the one record it was called on, which the validator read from
    the form and which violates no rule. *)
Theorem index_post_invariante (form_data : gmap string string) :
  let r := index py_float py_int POST form_data in
  length (flashes r) = 1%nat /\
  (length (chamadas r) <= 1)%nat /\
  (resultado r = None <-> exists msg, flashes r = [(msg, "error"%string)]) /\
  (forall res, resultado r = Some res ->
     flashes r = [(msg_sucesso, "success"%string)] /\
     exists d, chamadas r = [d] /\
               ler_campos py_float py_int form_data = Some d /\
               regras_satisfeitas d /\
               calcular_precificacao d = Ok res).
Proof.
  cbv zeta. unfold index.
  destruct (validar_dados_entrada py_float py_int form_data) as [[|] msg] eqn:Ev;
    cbn [negb].
  - destruct (processar_dados_formulario py_float py_int form_data) as [d|] eqn:Ep.
    + destruct (calcular_precificacao d) as [res|e] eqn:Ec;
        cbn [flashes chamadas resultado length].
      * split; [reflexivity|]. split; [lia|]. split.
        { split; [intros H; discriminate H|]. intros [m' H]. discriminate H. }
        intros res' H. injection H as <-. split; [reflexivity|].
        exists d. split; [reflexivity|].
        destruct (processar_Some _ _ _ _ Ep) as [Hl _].
        split; [exact Hl|]. split; [|exact Ec].
        apply regras_satisfeitas_lista.
        unfold validar_dados_entrada in Ev. rewrite Hl, validar_regras_lista in Ev.
        destruct (primeira_violacao regras_codigo d); [discriminate Ev|reflexivity].
      * split; [reflexivity|]. split; [lia|]. split.
        { split; [eauto|reflexivity]. }
        intros res' H. discriminate H.
    + cbn [flashes chamadas resultado length].
      split; [reflexivity|]. split; [lia|]. split.
      { split; [eauto|reflexivity]. }
      intros res' H. discriminate H.
  - cbn [flashes chamadas resultado length].
    split; [reflexivity|]. split; [lia|]. split.
    { split; [eauto|reflexivity]. }
    intros res' H. discriminate H.
Qed.

End Extras.

Lemma so_os_dez_campos_witness :
  validar_dados_entrada Decimal.py_float Decimal.py_int form_exemplo =
  validar_dados_entrada Decimal.py_float Decimal.py_int
    (<["csrf" := "abc"]> form_exemplo) /\
  processar_dados_formulario Decimal.py_float Decimal.py_int form_exemplo =
  processar_dados_formulario Decimal.py_float Decimal.py_int
    (<["csrf" := "abc"]> form_exemplo) /\
  index Decimal.py_float Decimal.py_int POST form_exemplo =
  index Decimal.py_float Decimal.py_int POST (<["csrf" := "abc"]> form_exemplo).
Proof.
  apply (so_os_dez_campos Decimal.py_float Decimal.py_int form_exemplo
           (<["csrf" := "abc"]> form_exemplo) POST).
  intros k Hk. unfold campos in Hk. cbn [In] in Hk.
  repeat (destruct Hk as [<-|Hk]; [vm_compute; reflexivity|]). destruct Hk.
Defined.

(** * Further properties of the calculator *)

Lemma eqb_of_val x y :
  okf x = true -> okf y = true -> val x = val y -> PyFloat.eqb x y = true.
Proof.
  intros Hx Hy H. unfold PyFloat.eqb, SFeqb. rewrite (SFcompare_val x y Hx Hy).
  rewrite H, Z.compare_refl. reflexivity.
Qed.

(** X6.  The calculator returns a result exactly when the four integer
    factors it converts to float, [min(N_emp, 100)], [max(0, N_emp - 100)],
    [N_loc] and [max(0, N_aud - Aud_incl)], are below [LIMITE] in magnitude;
    otherwise it raises [OverflowError].  No rate, fee or margin makes it
    raise. *)
Theorem calcular_retorna_sse (d : DadosEntrada) :
  ((exists r, calcular_precificacao d = Ok r) <->
   Z.abs (Z.min (N_emp d) 100) < LIMITE /\ N_emp d - 100 < LIMITE /\
   Z.abs (N_loc d) < LIMITE /\ N_aud d - Aud_incl d < LIMITE) /\
  ((forall r, calcular_precificacao d <> Ok r) ->
   calcular_precificacao d = Raise OverflowError).
Proof.
  pose proof LIMITE_grande as HL. change (2 ^ 53) with 9007199254740992 in HL.
  split.
  - unfold calcular_precificacao, calcular_custo_funcionarios, calcular_custo_postos,
      calcular_custo_audiencias_extras, res_bind, int_mul_float.
    change (int_add_float 1 (m d)) with (Ok (A := float) (PyFloat.add (PyFloat.lit 1) (m d))).
    pose proof (of_int_None_iff (Z.min (N_emp d) 100)) as H1.
    pose proof (of_int_None_iff (Z.max 0 (N_emp d - 100))) as H2.
    pose proof (of_int_None_iff (N_loc d)) as H3.
    pose proof (of_int_None_iff (Z.max 0 (N_aud d - Aud_incl d))) as H4.
    destruct (PyFloat.of_int (Z.min (N_emp d) 100)) as [a|].
    2:{ split; [intros [r Hr]; discriminate Hr|].
        intros (B1 & _). assert (LIMITE <= Z.abs (Z.min (N_emp d) 100))
          by (apply H1; reflexivity). lia. }
    destruct (PyFloat.of_int (Z.max 0 (N_emp d - 100))) as [b|].
    2:{ split; [intros [r Hr]; discriminate Hr|].
        intros (_ & B2 & _). assert (LIMITE <= Z.abs (Z.max 0 (N_emp d - 100)))
          by (apply H2; reflexivity). lia. }
    destruct (PyFloat.of_int (N_loc d)) as [c|].
    2:{ split; [intros [r Hr]; discriminate Hr|].
        intros (_ & _ & B3 & _). assert (LIMITE <= Z.abs (N_loc d))
          by (apply H3; reflexivity). lia. }
    destruct (PyFloat.of_int (Z.max 0 (N_aud d - Aud_incl d))) as [x|].
    2:{ split; [intros [r Hr]; discriminate Hr|].
        intros (_ & _ & _ & B4).
        assert (LIMITE <= Z.abs (Z.max 0 (N_aud d - Aud_incl d)))
          by (apply H4; reflexivity). lia. }
    split; [|eauto]. intros _.
    assert (N1 : ~ LIMITE <= Z.abs (Z.min (N_emp d) 100))
      by (intros K; apply H1 in K; discriminate K).
    assert (N2 : ~ LIMITE <= Z.abs (Z.max 0 (N_emp d - 100)))
      by (intros K; apply H2 in K; discriminate K).
    assert (N3 : ~ LIMITE <= Z.abs (N_loc d))
      by (intros K; apply H3 in K; discriminate K).
    assert (N4 : ~ LIMITE <= Z.abs (Z.max 0 (N_aud d - Aud_incl d)))
      by (intros K; apply H4 in K; discriminate K).
    lia.
  - intros H. destruct (calcular_precificacao d) as [r|[]]; [|reflexivity].
    contradiction (H r). reflexivity.
Qed.

(** X7.  For a finite non-negative binary64 rate the location cost is never
    negative for a non-negative count, is non-decreasing in the count, and
    for counts up to [2^53] in magnitude is the exact product rounded once
    to binary64. *)
Theorem custo_postos_propriedades (r_loc : float) :
  PyFloat.wf r_loc -> PyFloat.is_finite r_loc = true -> PyFloat.nonneg r_loc = true ->
  (forall (n : Z) (c : float),
     0 <= n -> calcular_custo_postos n r_loc = Ok c -> PyFloat.nonneg c = true) /\
  (forall (n1 n2 : Z) (c1 c2 : float),
     n1 <= n2 ->
     calcular_custo_postos n1 r_loc = Ok c1 ->
     calcular_custo_postos n2 r_loc = Ok c2 ->
     PyFloat.leb c1 c2 = true) /\
  (forall (n : Z) (c : float),
     - 2 ^ 53 <= n <= 2 ^ 53 ->
     calcular_custo_postos n r_loc = Ok c -> val c = Gs (n * val r_loc)).
Proof.
  intros W F N. destruct (nonneg_okf _ W N) as [O V].
  unfold calcular_custo_postos. split; [|split].
  - intros n c Hn H. destruct (int_mul_float_nn n r_loc c Hn O F V H) as [Oc Vc].
    apply okf_nonneg; assumption.
  - intros n1 n2 c1 c2 Hn H1 H2.
    destruct (int_mul_float_Ok _ _ _ H1) as (a1 & Ha1 & ->).
    destruct (int_mul_float_Ok _ _ _ H2) as (a2 & Ha2 & ->).
    destruct (parcela_spec r_loc n1 a1 O F V Ha1) as [O1 _].
    destruct (parcela_spec r_loc n2 a2 O F V Ha2) as [O2 _].
    apply leb_of_val; try assumption.
    exact (parcela_mono r_loc n1 n2 a1 a2 O F V Hn Ha1 Ha2).
  - intros n c Hn H.
    destruct (int_mul_float_Ok _ _ _ H) as (a & Ha & ->).
    exact (parcela_exata r_loc n a O F V Hn Ha).
Qed.

(** X8.  For a finite non-negative binary64 rate the extra-hearing cost is
    never negative, whatever the two counts, does not decrease when the
    total of hearings grows and does not increase when the included ones
    grow. *)
Theorem custo_audiencias_propriedades (r_aud : float) :
  PyFloat.wf r_aud -> PyFloat.is_finite r_aud = true -> PyFloat.nonneg r_aud = true ->
  (forall (n_aud aud_incl : Z) (c : float),
     calcular_custo_audiencias_extras n_aud aud_incl r_aud = Ok c ->
     PyFloat.nonneg c = true) /\
  (forall (n1 n2 i1 i2 : Z) (c1 c2 : float),
     n1 <= n2 -> i2 <= i1 ->
     calcular_custo_audiencias_extras n1 i1 r_aud = Ok c1 ->
     calcular_custo_audiencias_extras n2 i2 r_aud = Ok c2 ->
     PyFloat.leb c1 c2 = true).
Proof.
  intros W F N. destruct (nonneg_okf _ W N) as [O V].
  unfold calcular_custo_audiencias_extras. split.
  - intros n i c H.
    assert (Hm : 0 <= Z.max 0 (n - i)) by lia.
    destruct (int_mul_float_nn _ r_aud c Hm O F V H) as [Oc Vc].
    apply okf_nonneg; assumption.
  - intros n1 n2 i1 i2 c1 c2 Hn Hi H1 H2.
    destruct (int_mul_float_Ok _ _ _ H1) as (a1 & Ha1 & ->).
    destruct (int_mul_float_Ok _ _ _ H2) as (a2 & Ha2 & ->).
    destruct (parcela_spec r_aud _ a1 O F V Ha1) as [O1 _].
    destruct (parcela_spec r_aud _ a2 O F V Ha2) as [O2 _].
    apply leb_of_val; try assumption.
    apply (parcela_mono r_aud (Z.max 0 (n1 - i1)) (Z.max 0 (n2 - i2)) a1 a2 O F V);
      [lia|assumption|assumption].
Qed.

Lemma custo_postos_propriedades_witness :
  PyFloat.leb (PyFloat.lit 1000) (PyFloat.lit 1200) = true.
Proof.
  refine (proj1 (proj2 (custo_postos_propriedades (PyFloat.lit 200) _ _ _)) 5 6 _ _ _ _ _);
    try (vm_compute; reflexivity).
  lia.
Defined.

Lemma custo_audiencias_propriedades_witness :
  PyFloat.leb (PyFloat.lit 750) (PyFloat.lit 1050) = true.
Proof.
  refine (proj2 (custo_audiencias_propriedades (PyFloat.lit 150) _ _ _) 8 9 3 2 _ _ _ _ _ _);
    try (vm_compute; reflexivity); lia.
Defined.

Lemma lit_1 : PyFloat.lit 1 = S754_finite false 4503599627370496 (-52).
Proof. vm_compute. reflexivity. Qed.

Lemma val_lit_1 : val (PyFloat.lit 1) = 2 ^ SC.
Proof.
  unfold PyFloat.lit. rewrite round_int_val.
  rewrite Gs_exato by (change (2 ^ 53) with 9007199254740992; lia). lia.
Qed.

(** multiplying by [1.0] changes nothing *)
Lemma mul_um x :
  okf x = true -> 0 <= val x ->
  okf (PyFloat.mul x (PyFloat.lit 1)) = true /\
  val (PyFloat.mul x (PyFloat.lit 1)) = val x.
Proof.
  intros Hx Vx.
  pose proof (round_int_okf 1) as O1. fold (PyFloat.lit 1) in O1.
  assert (F1 : PyFloat.is_finite (PyFloat.lit 1) = true) by (rewrite lit_1; reflexivity).
  pose proof val_lit_1 as V1.
  pose proof (pow2_pos 1074 ltac:(lia)) as Hq.
  destruct (okf_cases x Hx) as [[Fx _]|[s Hs]].
  - assert (V1' : 0 <= val (PyFloat.lit 1)).
    { rewrite V1. pose proof (pow2_pos SC ltac:(unfold SC; lia)). lia. }
    destruct (mul_nn x (PyFloat.lit 1) Hx O1 Fx F1 Vx V1') as (Hok & Hv & _).
    split; [exact Hok|]. rewrite Hv.
    pose proof (val_hv _ O1 F1) as E1. rewrite V1, pow_SC in E1.
    assert (Eh : hv (PyFloat.lit 1) = 2 ^ 1074) by nia.
    rewrite Eh, <- (val_hv x Hx Fx). apply G_val; assumption.
  - subst x. rewrite lit_1. pose proof TOP_pos. cbn [val] in Vx.
    destruct s; cbn [cond_Zopp] in Vx; [lia|].
    unfold PyFloat.mul. cbn [SFmul xorb]. split; reflexivity.
Qed.

(** the gross cost of non-negative data with finite rates *)
Lemma custo_bruto_nn d ce cl ca :
  dados_wf d -> dados_nao_negativos d -> tarifas_finitas d ->
  calcular_custo_funcionarios (N_emp d) (Rp1 d) (Rp2 d) = Ok ce ->
  calcular_custo_postos (N_loc d) (R_loc d) = Ok cl ->
  calcular_custo_audiencias_extras (N_aud d) (Aud_incl d) (R_aud d) = Ok ca ->
  okf (PyFloat.add (PyFloat.add (PyFloat.add (F_base d) ce) cl) ca) = true /\
  0 <= val (PyFloat.add (PyFloat.add (PyFloat.add (F_base d) ce) cl) ca).
Proof.
  intros (Wf & W1 & W2 & Wl & Wa & Wm)
         (Nf & Ne & N1 & N2 & Nl & Nrl & Ni & Na & Nra & Nm)
         (F1 & F2 & Fl & Fa & Fm) He Hl Ha.
  destruct (nonneg_okf _ Wf Nf) as [Of Vf].
  destruct (nonneg_okf _ W1 N1) as [O1 V1].
  destruct (nonneg_okf _ W2 N2) as [O2 V2].
  destruct (nonneg_okf _ Wl Nrl) as [Ol Vl].
  destruct (nonneg_okf _ Wa Nra) as [Oa Va].
  destruct (custo_funcionarios_nn _ _ _ _ Ne O1 F1 V1 O2 F2 V2 He) as [Oe Ve].
  destruct (int_mul_float_nn _ _ _ Nl Ol Fl Vl Hl) as [Oc Vc].
  assert (Hmax : 0 <= Z.max 0 (N_aud d - Aud_incl d)) by lia.
  unfold calcular_custo_audiencias_extras in Ha.
  destruct (int_mul_float_nn _ _ _ Hmax Oa Fa Va Ha) as [Ox Vx].
  destruct (add_nn _ _ Of Oe Vf Ve) as (S1 & _ & T1).
  destruct (add_nn _ _ S1 Oc T1 Vc) as (S2 & _ & T2).
  destruct (add_nn _ _ S2 Ox T2 Vx) as (S3 & _ & T3).
  split; assumption.
Qed.

(** X9.  A NaN margin passes the rules exactly as a zero margin does, since
    both comparisons on it are false, and every price computed with it is
    NaN. *)
Theorem margem_nan_aceita (d : DadosEntrada) :
  PyFloat.is_nan (m d) = true ->
  validar_regras d = validar_regras (com_margem d (PyFloat.lit 0)) /\
  (forall r, calcular_precificacao d = Ok r -> Preco r = PyFloat.nan).
Proof.
  intros Hn.
  assert (Em : m d = S754_nan) by (destruct (m d); try discriminate Hn; reflexivity).
  split.
  - unfold validar_regras.
    cbn [com_margem F_base N_emp Rp1 Rp2 N_loc R_loc Aud_incl N_aud R_aud m].
    rewrite Em.
    change (PyFloat.ltb S754_nan (PyFloat.lit 0)) with false.
    change (PyFloat.ltb (PyFloat.lit 10) S754_nan) with false.
    change (PyFloat.ltb (PyFloat.lit 0) (PyFloat.lit 0)) with false.
    change (PyFloat.ltb (PyFloat.lit 10) (PyFloat.lit 0)) with false.
    reflexivity.
  - intros r H.
    destruct (calcular_precificacao_Ok d r H) as (_ & _ & _ & _ & _ & Hp).
    rewrite Hp, Em, lit_1. unfold PyFloat.add. cbn [SFadd].
    unfold PyFloat.mul, PyFloat.nan.
    destruct (Custo_bruto r); reflexivity.
Qed.

(** X10.  With a zero margin (of either sign) on non-negative binary64 data
    with finite rates, the price equals the gross cost. *)
Theorem margem_zero_preco_igual_custo (d : DadosEntrada) (r : ResultadoCalculo) :
  dados_wf d -> dados_nao_negativos d -> tarifas_finitas d ->
  PyFloat.eqb (m d) (PyFloat.lit 0) = true ->
  calcular_precificacao d = Ok r ->
  PyFloat.eqb (Preco r) (Custo_bruto r) = true.
Proof.
  intros W N F Hz H.
  destruct (calcular_precificacao_Ok d r H) as (He & Hl & Ha & Hb & _ & Hp).
  destruct (custo_bruto_nn d _ _ _ W N F He Hl Ha) as [Oc Vc].
  rewrite <- Hb in Oc, Vc.
  assert (Em : exists s, m d = S754_zero s).
  { rewrite lit_0 in Hz. unfold PyFloat.eqb, SFeqb in Hz.
    destruct (m d) as [s|s| |s mm e]; cbn [SFcompare] in Hz.
    - eauto.
    - destruct s; discriminate Hz.
    - discriminate Hz.
    - destruct s; discriminate Hz. }
  destruct Em as [s Em].
  assert (Eu : PyFloat.add (PyFloat.lit 1) (m d) = PyFloat.lit 1).
  { rewrite Em, lit_1. unfold PyFloat.add. cbn [SFadd]. reflexivity. }
  rewrite Eu in Hp.
  destruct (mul_um (Custo_bruto r) Oc Vc) as [Op Vp].
  rewrite <- Hp in Op, Vp.
  apply eqb_of_val; assumption.
Qed.

(** X11.  On non-negative binary64 data with finite rates, changing the
    margin leaves the gross cost unchanged, and a larger finite non-negative
    margin never gives a smaller price. *)
Theorem preco_monotono_na_margem (d : DadosEntrada) (x1 x2 : float)
    (r1 r2 : ResultadoCalculo) :
  dados_wf d -> dados_nao_negativos d -> tarifas_finitas d ->
  PyFloat.wf x1 -> PyFloat.wf x2 ->
  PyFloat.is_finite x1 = true -> PyFloat.is_finite x2 = true ->
  PyFloat.nonneg x1 = true -> PyFloat.leb x1 x2 = true ->
  calcular_precificacao (com_margem d x1) = Ok r1 ->
  calcular_precificacao (com_margem d x2) = Ok r2 ->
  Custo_bruto r1 = Custo_bruto r2 /\
  PyFloat.leb (Preco r1) (Preco r2) = true.
Proof.
  intros W N F W1 W2 F1 F2 N1 L12 H1 H2.
  destruct (calcular_precificacao_Ok _ _ H1) as (He1 & Hl1 & Ha1 & Hb1 & Hu1 & Hp1).
  destruct (calcular_precificacao_Ok _ _ H2) as (He2 & Hl2 & Ha2 & Hb2 & Hu2 & Hp2).
  cbn [com_margem F_base N_emp Rp1 Rp2 N_loc R_loc Aud_incl N_aud R_aud m] in *.
  rewrite He1 in He2. apply Ok_inj in He2.
  rewrite Hl1 in Hl2. apply Ok_inj in Hl2.
  rewrite Ha1 in Ha2. apply Ok_inj in Ha2.
  assert (Ec : Custo_bruto r1 = Custo_bruto r2).
  { rewrite Hb1, Hb2, He2, Hl2, Ha2. reflexivity. }
  split; [exact Ec|].
  destruct (custo_bruto_nn d _ _ _ W N F He1 Hl1 Ha1) as [Oc Vc].
  rewrite <- Hb1 in Oc, Vc.
  destruct (nonneg_okf _ W1 N1) as [O1 V1].
  assert (O2 : okf x2 = true) by (apply wf_okf; [exact W2|destruct x2; try discriminate F2; reflexivity]).
  assert (V12 : val x1 <= val x2).
  { unfold PyFloat.leb, SFleb in L12. rewrite (SFcompare_val x1 x2 O1 O2) in L12.
    destruct (val x1 ?= val x2) eqn:E; try discriminate L12.
    - apply Z.compare_eq in E. lia.
    - rewrite Z.compare_lt_iff in E. lia. }
  assert (V2 : 0 <= val x2) by lia.
  destruct (um_mais_m_spec _ _ O1 F1 V1 Hu1) as (Ou1 & Fu1 & Vu1).
  destruct (um_mais_m_spec _ _ O2 F2 V2 Hu2) as (Ou2 & Fu2 & Vu2).
  pose proof (round_int_okf 1) as Ok1. fold (PyFloat.lit 1) in Ok1.
  pose proof val_lit_1 as Vl1.
  pose proof (pow2_pos SC ltac:(unfold SC; lia)) as Hp.
  assert (Vl1' : 0 <= val (PyFloat.lit 1)) by lia.
  destruct (add_nn _ _ Ok1 O1 Vl1' V1) as (_ & Ev1 & _).
  destruct (add_nn _ _ Ok1 O2 Vl1' V2) as (_ & Ev2 & _).
  assert (Vu12 : val (PyFloat.add (PyFloat.lit 1) x1) <= val (PyFloat.add (PyFloat.lit 1) x2)).
  { rewrite Ev1, Ev2. apply G_mono. lia. }
  destruct (preco_ge_custo _ _ Oc Vc Ou1 Fu1 Vu1) as [Op1 _].
  destruct (preco_ge_custo _ _ Oc Vc Ou2 Fu2 Vu2) as [Op2 _].
  rewrite Hp1, Hp2, <- Ec.
  apply leb_of_val.
  - exact Op1.
  - exact Op2.
  - destruct (okf_cases _ Oc) as [[Fc _]|[s Hs]].
    + destruct (mul_nn _ _ Oc Ou1 Fc Fu1 Vc ltac:(lia)) as (_ & E1 & _).
      destruct (mul_nn _ _ Oc Ou2 Fc Fu2 Vc ltac:(lia)) as (_ & E2 & _).
      rewrite E1, E2.
      pose proof (hv_le _ _ Ou1 Fu1 Ou2 Fu2 Vu12) as Hh.
      pose proof (proj1 (hv_sign _ Oc Fc) Vc) as Hc0.
      pose proof (proj1 (hv_sign _ Ou1 Fu1) ltac:(lia)) as Hu0.
      apply G_mono. nia.
    + rewrite Hs in *. pose proof TOP_pos. cbn [val] in Vc.
      destruct s; cbn [cond_Zopp] in Vc; [lia|].
      pose proof (pow2_pos 1074 ltac:(lia)) as Hq.
      destruct (PyFloat.add (PyFloat.lit 1) x1) as [su|su| |su mu eu] eqn:Eu1;
        try discriminate Fu1.
      { cbn [val] in Vu1. lia. }
      destruct (PyFloat.add (PyFloat.lit 1) x2) as [sv|sv| |sv mv ev] eqn:Eu2;
        try discriminate Fu2.
      { cbn [val] in Vu2. lia. }
      cbn [val] in Vu1, Vu2.
      destruct su; cbn [cond_Zopp] in Vu1;
        [cbn [okf valid_binary] in Ou1; pose proof (bounded_lt_TOP _ _ Ou1); lia|].
      destruct sv; cbn [cond_Zopp] in Vu2;
        [cbn [okf valid_binary] in Ou2; pose proof (bounded_lt_TOP _ _ Ou2); lia|].
      unfold PyFloat.mul. cbn [SFmul xorb val cond_Zopp]. lia.
Qed.

Lemma margem_nan_aceita_witness :
  validar_regras dados_margem_nan = validar_regras (com_margem dados_margem_nan (PyFloat.lit 0)) /\
  (forall r, calcular_precificacao dados_margem_nan = Ok r -> Preco r = PyFloat.nan).
Proof.
  apply (margem_nan_aceita dados_margem_nan). reflexivity.
Defined.

Lemma margem_zero_preco_igual_custo_witness :
  PyFloat.eqb (Preco resultado_margem_zero) (Custo_bruto resultado_margem_zero) = true.
Proof.
  apply (margem_zero_preco_igual_custo dados_margem_zero resultado_margem_zero).
  - unfold dados_wf. repeat split; vm_compute; reflexivity.
  - unfold dados_nao_negativos.
    cbn [N_emp N_loc Aud_incl N_aud dados_margem_zero com_margem dados_exemplo].
    repeat split; try lia; vm_compute; reflexivity.
  - unfold tarifas_finitas. repeat split; vm_compute; reflexivity.
  - vm_compute. reflexivity.
  - vm_compute. reflexivity.
Defined.

Lemma preco_monotono_na_margem_witness :
  Custo_bruto resultado_margem_010 = Custo_bruto resultado_exemplo /\
  PyFloat.leb (Preco resultado_margem_010) (Preco resultado_exemplo) = true.
Proof.
  apply (preco_monotono_na_margem dados_exemplo um_decimo margem_020
           resultado_margem_010 resultado_exemplo).
  - unfold dados_wf. repeat split; vm_compute; reflexivity.
  - unfold dados_nao_negativos. cbn [N_emp N_loc Aud_incl N_aud dados_exemplo].
    repeat split; try lia; vm_compute; reflexivity.
  - unfold tarifas_finitas. repeat split; vm_compute; reflexivity.
  - vm_compute. reflexivity.
  - vm_compute. reflexivity.
  - reflexivity.
  - reflexivity.
  - vm_compute. reflexivity.
  - vm_compute. reflexivity.
  - vm_compute. reflexivity.
  - vm_compute. reflexivity.
Defined.
